(** * react-native-node-api: the ferric target resolver and the link command

    A shallow embedding of [packages/ferric/src/cargo.ts] (the
    cross-compilation target resolver and the cargo invocation) and of the
    [link] command of the host CLI, with the properties of the
    specification stated over them.

    Conventions of the embedding.
    - A JavaScript string is a [string]; a [Record<string, string>] is a
      [gmap string string]; an array is a [list].
    - A function that can throw returns [Error + A].
    - [process.env], [process.platform], [process.cwd()] and the file system
      observed through [fs.existsSync] and [fs.readdirSync] are the fields of
      a [Host], passed explicitly.
    - What Node.js or another package provides ([path.join], [spawn], the
      prebuild paths exported by [weak-node-api], ...) is a [Variable] of the
      enclosing section. *)

From Stdlib Require Import ZArith Ascii String List.
From stdpp Require Import base option list strings pretty gmap fin_maps.

Local Open Scope string_scope.
Local Open Scope list_scope.

(** ** JavaScript strings and arrays *)

Module Js.

(** [String.fromCharCode(0x1f)], the unit separator. *)
Definition unit_separator_char : ascii := ascii_of_nat 31.
Definition fromCharCode_0x1f : string := String unit_separator_char EmptyString.

(** [Array.prototype.join] on an array of strings. *)
Fixpoint join (sep : string) (fields : list string) : string :=
  match fields with
  | [] => EmptyString
  | [x] => x
  | x :: rest => x +:+ sep +:+ join sep rest
  end.

(** [String.prototype.split] with a separator of one character: the
    pieces between the occurrences of [sep]; never the empty array. *)
Fixpoint split (sep : ascii) (s : string) : list string :=
  match s with
  | EmptyString => [EmptyString]
  | String c rest =>
      if decide (c = sep) then EmptyString :: split sep rest
      else match split sep rest with
           | [] => [String c EmptyString]
           | piece :: pieces => String c piece :: pieces
           end
  end.

(** [String.prototype.endsWith]. *)
Definition endsWith (s suffix : string) : bool :=
  let n := String.length s in
  let k := String.length suffix in
  if decide (k <= n)%nat
  then bool_decide (substring (n - k) k s = suffix)
  else false.

(** [String.prototype.startsWith]. *)
Definition startsWith (s pre : string) : bool := String.prefix pre s.

(** [String.prototype.includes]. *)
Fixpoint includes (s needle : string) : bool :=
  String.prefix needle s ||
  match s with
  | EmptyString => false
  | String _ rest => includes rest needle
  end.

(** [String.prototype.toLowerCase], on the ASCII letters. *)
Definition lower_char (c : ascii) : ascii :=
  let n := nat_of_ascii c in
  if decide (65 <= n <= 90)%nat then ascii_of_nat (n + 32) else c.

Fixpoint toLowerCase (s : string) : string :=
  match s with
  | EmptyString => EmptyString
  | String c rest => String (lower_char c) (toLowerCase rest)
  end.

(** A number inside a template literal; the numbers of the model are
    integers, printed in decimal. *)
Definition number (n : Z) : string := pretty n.

(** An optional string inside a template literal: a missing property
    prints as [undefined]. *)
Definition template (v : option string) : string :=
  match v with
  | Some s => s
  | None => "undefined"
  end.

Definition newline : string := String (ascii_of_nat 10) EmptyString.

(** A string between double quotes, as a template writes it. *)
Definition double_quote : string := String (ascii_of_nat 34) EmptyString.
Definition quoted (s : string) : string := double_quote +:+ s +:+ double_quote.

(** Truthiness of a string: only the empty string is falsy. *)
Definition truthy (s : string) : bool := negb (bool_decide (s = EmptyString)).

End Js.

(** ** Errors *)

(** The [fix] carried by the error that [assertFixable] throws. *)
Inductive Fix :=
| Instructions (text : string)
| Command (command : string).

Inductive Error :=
| AssertionError (message : string)        (* node:assert *)
| UsageError (message : string) (remedy : option Fix)
| JsError (message : string)               (* new Error(message) *)
| ENOENT (path : string)                    (* fs.readdirSync on a missing directory *)
| ENOTDIR (path : string)                   (* fs.readdirSync on a file *)
| SpawnFailed (message : string) (output : string).

Definition error_message (e : Error) : string :=
  match e with
  | AssertionError message => message
  | UsageError message _ => message
  | JsError message => message
  | ENOENT path =>
      "ENOENT: no such file or directory, scandir '" +:+ path +:+ "'"
  | ENOTDIR path => "ENOTDIR: not a directory, scandir '" +:+ path +:+ "'"
  | SpawnFailed message _ => message
  end.

Definition Result (A : Type) : Type := Error + A.

Definition ok {A} (x : A) : Result A := inr x.
Definition throw {A} (e : Error) : Result A := inl e.

Definition bind {A B} (m : Result A) (k : A -> Result B) : Result B :=
  match m with
  | inl e => inl e
  | inr x => k x
  end.

Notation "'let!' x ':=' m 'in' k" := (bind m (fun x => k))
  (at level 10, x pattern, m at level 100, k at level 200).
Notation "'do!' m 'in' k" := (bind m (fun _ => k))
  (at level 10, m at level 100, k at level 200).

(** [assert(value, message)] *)
Definition assert (value : bool) (message : string) : Result unit :=
  if value then ok tt else throw (AssertionError message).

(** Modelled from the spec: [assertFixable(value, message, fix)] of
    cli-utils, which is not among the sources.  Section 4.1: a missing SDK
    root or NDK is a fixable condition, reported with its remediation text
    or with the exact corrective command. *)
Definition assertFixable (value : bool) (message : string) (remedy : Fix)
  : Result unit :=
  if value then ok tt else throw (UsageError message (Some remedy)).

(** ** Targets *)

(** The names of targets.ts, which is not among the sources, are fixed by
    cargo.ts: a [Record<AndroidTargetName, string>] and a
    [Record<AppleTargetName, string[]>] have exactly the members of the two
    unions for keys. *)

Inductive AndroidTargetName :=
| aarch64_linux_android
| armv7_linux_androideabi
| i686_linux_android
| x86_64_linux_android.

Inductive AppleTargetName :=
| aarch64_apple_darwin
| x86_64_apple_darwin
| aarch64_apple_ios
| aarch64_apple_ios_sim
| x86_64_apple_ios
| aarch64_apple_visionos
| aarch64_apple_visionos_sim
| aarch64_apple_tvos
| aarch64_apple_tvos_sim
| x86_64_apple_tvos.

Inductive TargetName :=
| AndroidTarget (target : AndroidTargetName)
| AppleTarget (target : AppleTargetName).

(** The string behind each name of the union types. *)
Definition android_triple (target : AndroidTargetName) : string :=
  match target with
  | aarch64_linux_android => "aarch64-linux-android"
  | armv7_linux_androideabi => "armv7-linux-androideabi"
  | i686_linux_android => "i686-linux-android"
  | x86_64_linux_android => "x86_64-linux-android"
  end.

Definition apple_triple (target : AppleTargetName) : string :=
  match target with
  | aarch64_apple_darwin => "aarch64-apple-darwin"
  | x86_64_apple_darwin => "x86_64-apple-darwin"
  | aarch64_apple_ios => "aarch64-apple-ios"
  | aarch64_apple_ios_sim => "aarch64-apple-ios-sim"
  | x86_64_apple_ios => "x86_64-apple-ios"
  | aarch64_apple_visionos => "aarch64-apple-visionos"
  | aarch64_apple_visionos_sim => "aarch64-apple-visionos-sim"
  | aarch64_apple_tvos => "aarch64-apple-tvos"
  | aarch64_apple_tvos_sim => "aarch64-apple-tvos-sim"
  | x86_64_apple_tvos => "x86_64-apple-tvos"
  end.

Definition triple (target : TargetName) : string :=
  match target with
  | AndroidTarget t => android_triple t
  | AppleTarget t => apple_triple t
  end.

(** [isAndroidTarget] and [isAppleTarget] tell the two families apart;
    here the constructor of the name does. *)

#[global] Instance AndroidTargetName_eq_dec : EqDecision AndroidTargetName.
Proof. solve_decision. Defined.

#[global] Instance AppleTargetName_eq_dec : EqDecision AppleTargetName.
Proof. solve_decision. Defined.

(** ** The tables of cargo.ts *)

(** A per apple target mapping to a list of xcframework slices in order of
    priority. *)
Definition APPLE_XCFRAMEWORK_SLICES_PER_TARGET (target : AppleTargetName)
  : list string :=
  match target with
  | aarch64_apple_darwin => ["macos-arm64_x86_64"; "macos-arm64"]
  | x86_64_apple_darwin => ["macos-arm64_x86_64"; "macos-x86_64"]
  | aarch64_apple_ios => ["ios-arm64"]
  | aarch64_apple_ios_sim =>
      ["ios-arm64_x86_64-simulator"; "ios-arm64-simulator"]
  | x86_64_apple_ios =>
      ["ios-arm64_x86_64-simulator"; "ios-x86_64-simulator"]
  | aarch64_apple_visionos => ["xros-arm64"]
  | aarch64_apple_visionos_sim =>
      ["xros-arm64_x86_64-simulator"; "xros-arm64-simulator"]
  | aarch64_apple_tvos => ["tvos-arm64"]
  | aarch64_apple_tvos_sim =>
      ["tvos-arm64_x86_64-simulator"; "tvos-arm64-simulator"]
  | x86_64_apple_tvos =>
      ["tvos-arm64_x86_64-simulator"; "tvos-x86_64-simulator"]
  end.

Definition ANDROID_ARCH_PR_TARGET (target : AndroidTargetName) : string :=
  match target with
  | aarch64_linux_android => "arm64-v8a"
  | armv7_linux_androideabi => "armeabi-v7a"
  | i686_linux_android => "x86"
  | x86_64_linux_android => "x86_64"
  end.

(** A slice that the table marks [// Universal] carries both architectures
    in its name. *)
Definition universal_slice (slice : string) : bool :=
  Js.includes slice "arm64_x86_64".

(** ** Architecture and platform of an Android target *)

Definition getTargetAndroidArch (target : string) : string :=
  let first := hd EmptyString (Js.split "-" target) in
  if decide (first = "armv7") then "armv7a" else first.

Definition getTargetAndroidPlatform (target : string) : string :=
  if decide (getTargetAndroidArch target = "armv7a")
  then "androideabi24"
  else "android24".

(** ** The host: what the process observes of its surroundings *)

Record Host := {
  process_env : gmap string string;       (* process.env *)
  process_platform : string;              (* process.platform *)
  process_cwd : string;                   (* process.cwd() *)
  existsSync : string -> bool;            (* fs.existsSync *)
  readdirSync : string -> Result (list string)
                             (* fs.readdirSync: the entries, or what it throws *)
}.

(** Two hosts that agree on what the target resolver reads of them. *)
Definition hosts_agree (h1 h2 : Host) : Prop :=
  process_env h1 !! "ANDROID_HOME" = process_env h2 !! "ANDROID_HOME" /\
  process_env h1 !! "PATH" = process_env h2 !! "PATH" /\
  (process_platform h1 = "win32" <-> process_platform h2 = "win32") /\
  (forall p, existsSync h1 p = existsSync h2 p) /\
  (forall p, readdirSync h1 p = readdirSync h2 p).

(** ** Build options *)

Inductive Configuration := debug | release.

#[global] Instance Configuration_eq_dec : EqDecision Configuration.
Proof. solve_decision. Defined.

Definition configuration_name (c : Configuration) : string :=
  match c with debug => "debug" | release => "release" end.

(** [BuildOptions]: the union over the two families of targets. *)
Inductive BuildOptions :=
| AndroidBuild (configuration : Configuration) (target : AndroidTargetName)
    (ndkVersion : string) (androidApiLevel : Z)
| AppleBuild (configuration : Configuration) (target : AppleTargetName)
    (androidApiLevel : option Z).

Definition options_target (options : BuildOptions) : TargetName :=
  match options with
  | AndroidBuild _ t _ _ => AndroidTarget t
  | AppleBuild _ t _ => AppleTarget t
  end.

Definition options_configuration (options : BuildOptions) : Configuration :=
  match options with
  | AndroidBuild c _ _ _ => c
  | AppleBuild c _ _ => c
  end.

(** One call of [spawn(command, args, { env })]. *)
Record Invocation := {
  inv_command : string;
  inv_args : list string;
  inv_env : gmap string string
}.


Module Cargo.
Section Resolver.

(** [path.join] of node:path. *)
Variable path_join : list string -> string.

(** The prebuild directories exported by the weak-node-api package. *)
Variable applePrebuildPath : string.
Variable androidPrebuildPath : string.

(** [isThirdTierTarget] of targets.ts. *)
Variable isThirdTierTarget : TargetName -> bool.

(** [spawn] of cli-utils with [outputMode: "buffered"]: the child either
    fails, or ends and leaves the host as it made it. *)
Variable spawn : Invocation -> Host -> Result Host.

Definition joinPathAndAssertExistence (h : Host)
    (pathSegments : list string) : Result string :=
  let joinedPath := path_join pathSegments in
  do! assert (existsSync h joinedPath)
        ("Expected " +:+ joinedPath +:+ " to exist") in
  ok joinedPath.

Definition getLLVMToolchainBinPath (h : Host) (ndkPath : string)
  : Result string :=
  let prebuiltPath := path_join [ndkPath; "toolchains"; "llvm"; "prebuilt"] in
  match readdirSync h prebuiltPath with
  | inl error => throw error
  | inr candidates =>
      match candidates with
      | [] => throw (JsError "Expected LLVM toolchain to be installed")
      | [candidate] => ok (path_join [prebuiltPath; candidate; "bin"])
      | _ :: _ :: _ =>
          throw (JsError "Expected a single LLVM toolchain to be installed")
      end
  end.

Definition getWeakNodeApiFrameworkPath (h : Host) (target : AppleTargetName)
  : Result string :=
  let result :=
    find (fun slice => existsSync h (path_join [applePrebuildPath; slice]))
         (APPLE_XCFRAMEWORK_SLICES_PER_TARGET target) in
  match result with
  | Some slice =>
      do! assert (Js.truthy slice)
            ("No matching slice found in weak-node-api.xcframework for target "
               +:+ apple_triple target) in
      joinPathAndAssertExistence h [applePrebuildPath; slice]
  | None =>
      throw (AssertionError
        ("No matching slice found in weak-node-api.xcframework for target "
           +:+ apple_triple target))
  end.

(** The directory of a slice under the Apple prebuild path. *)
Definition slice_path (slice : string) : string :=
  path_join [applePrebuildPath; slice].

Definition getWeakNodeApiAndroidLibraryPath (h : Host)
    (target : AndroidTargetName) : Result string :=
  joinPathAndAssertExistence h
    [androidPrebuildPath; ANDROID_ARCH_PR_TARGET target].

Definition rustflags (fields : list string) : string :=
  Js.join Js.fromCharCode_0x1f fields.

Definition getTargetEnvironmentVariables (h : Host) (options : BuildOptions)
  : Result (gmap string string) :=
  match options with
  | AndroidBuild _ target ndkVersion androidApiLevel =>
      do! assert (Js.truthy ndkVersion)
            "Expected ndkVersion to be set for Android targets" in
      let ANDROID_HOME := process_env h !! "ANDROID_HOME" in
      do! assertFixable
            (match ANDROID_HOME with
             | Some home => Js.truthy home && existsSync h home
             | None => false
             end)
            "Missing ANDROID_HOME environment variable"
            (Instructions "Set ANDROID_HOME to the Android SDK directory") in
      let ndkPath := path_join [default EmptyString ANDROID_HOME; "ndk"; ndkVersion] in
      do! assertFixable (existsSync h ndkPath)
            ("Expected NDK at " +:+ ndkPath)
            (Command ("sdkmanager --install " +:+ Js.quoted ("ndk;" +:+ ndkVersion))) in
      let! toolchainBinPath := getLLVMToolchainBinPath h ndkPath in
      let targetArch := getTargetAndroidArch (android_triple target) in
      let targetPlatform := getTargetAndroidPlatform (android_triple target) in
      let! weakNodeApiPath := getWeakNodeApiAndroidLibraryPath h target in
      let cmdMaybe :=
        if decide (process_platform h = "win32") then ".cmd" else EmptyString in
      let exeMaybe :=
        if decide (process_platform h = "win32") then ".exe" else EmptyString in
      let level := Js.number androidApiLevel in
      let! aarch64_linker := joinPathAndAssertExistence h
        [toolchainBinPath;
         "aarch64-linux-android" +:+ level +:+ "-clang" +:+ cmdMaybe] in
      let! armv7_linker := joinPathAndAssertExistence h
        [toolchainBinPath;
         "armv7a-linux-androideabi" +:+ level +:+ "-clang" +:+ cmdMaybe] in
      let! x86_64_linker := joinPathAndAssertExistence h
        [toolchainBinPath;
         "x86_64-linux-android" +:+ level +:+ "-clang" +:+ cmdMaybe] in
      let! i686_linker := joinPathAndAssertExistence h
        [toolchainBinPath;
         "i686-linux-android" +:+ level +:+ "-clang" +:+ cmdMaybe] in
      let! target_cc := joinPathAndAssertExistence h
        [toolchainBinPath;
         targetArch +:+ "-linux-" +:+ targetPlatform +:+ "-clang"
           +:+ cmdMaybe] in
      let! target_cxx := joinPathAndAssertExistence h
        [toolchainBinPath;
         targetArch +:+ "-linux-" +:+ targetPlatform +:+ "-clang++"
           +:+ cmdMaybe] in
      let! target_ar := joinPathAndAssertExistence h
        [toolchainBinPath; "llvm-ar" +:+ exeMaybe] in
      let! target_ranlib := joinPathAndAssertExistence h
        [toolchainBinPath; "llvm-ranlib" +:+ exeMaybe] in
      ok (<["CARGO_ENCODED_RUSTFLAGS" :=
             rustflags ["-L"; weakNodeApiPath; "-l"; "weak-node-api"]]>
         (<["CARGO_TARGET_AARCH64_LINUX_ANDROID_LINKER" := aarch64_linker]>
         (<["CARGO_TARGET_ARMV7_LINUX_ANDROIDEABI_LINKER" := armv7_linker]>
         (<["CARGO_TARGET_X86_64_LINUX_ANDROID_LINKER" := x86_64_linker]>
         (<["CARGO_TARGET_I686_LINUX_ANDROID_LINKER" := i686_linker]>
         (<["TARGET_CC" := target_cc]>
         (<["TARGET_CXX" := target_cxx]>
         (<["TARGET_AR" := target_ar]>
         (<["TARGET_RANLIB" := target_ranlib]>
         (<["ANDROID_NDK" := ndkPath]>
         (<["PATH" :=
             toolchainBinPath +:+ ":"
               +:+ Js.template (process_env h !! "PATH")]> ∅)))))))))))
  | AppleBuild _ target _ =>
      let! weakNodeApiFrameworkPath := getWeakNodeApiFrameworkPath h target in
      do! assert (existsSync h weakNodeApiFrameworkPath)
            ("Expected weak-node-api framework at "
               +:+ weakNodeApiFrameworkPath) in
      ok (<["CARGO_ENCODED_RUSTFLAGS" :=
             rustflags ["-L"; "framework=" +:+ weakNodeApiFrameworkPath;
                        "-l"; "framework=weak-node-api"]]> ∅)
  end.

(** The suffixes of the tools on a Windows host. *)
Definition cmdMaybe (h : Host) : string :=
  if decide (process_platform h = "win32") then ".cmd" else EmptyString.

Definition exeMaybe (h : Host) : string :=
  if decide (process_platform h = "win32") then ".exe" else EmptyString.

(** A tool of the toolchain, as a path. *)
Definition tool (toolchainBinPath name : string) : string :=
  path_join [toolchainBinPath; name].

(** The mapping that the Android branch returns once it has resolved the
    SDK root [home], the toolchain directory [bin] and the library
    directory [lib] and every assertion has passed. *)
Definition android_environment (h : Host) (target : AndroidTargetName)
    (ndkVersion : string) (androidApiLevel : Z) (home bin lib : string)
  : gmap string string :=
  let level := Js.number androidApiLevel in
  let arch := getTargetAndroidArch (android_triple target) in
  let platform := getTargetAndroidPlatform (android_triple target) in
  <["CARGO_ENCODED_RUSTFLAGS" := rustflags ["-L"; lib; "-l"; "weak-node-api"]]>
  (<["CARGO_TARGET_AARCH64_LINUX_ANDROID_LINKER" :=
      tool bin ("aarch64-linux-android" +:+ level +:+ "-clang" +:+ cmdMaybe h)]>
  (<["CARGO_TARGET_ARMV7_LINUX_ANDROIDEABI_LINKER" :=
      tool bin ("armv7a-linux-androideabi" +:+ level +:+ "-clang"
                  +:+ cmdMaybe h)]>
  (<["CARGO_TARGET_X86_64_LINUX_ANDROID_LINKER" :=
      tool bin ("x86_64-linux-android" +:+ level +:+ "-clang" +:+ cmdMaybe h)]>
  (<["CARGO_TARGET_I686_LINUX_ANDROID_LINKER" :=
      tool bin ("i686-linux-android" +:+ level +:+ "-clang" +:+ cmdMaybe h)]>
  (<["TARGET_CC" :=
      tool bin (arch +:+ "-linux-" +:+ platform +:+ "-clang" +:+ cmdMaybe h)]>
  (<["TARGET_CXX" :=
      tool bin (arch +:+ "-linux-" +:+ platform +:+ "-clang++" +:+ cmdMaybe h)]>
  (<["TARGET_AR" := tool bin ("llvm-ar" +:+ exeMaybe h)]>
  (<["TARGET_RANLIB" := tool bin ("llvm-ranlib" +:+ exeMaybe h)]>
  (<["ANDROID_NDK" := path_join [home; "ndk"; ndkVersion]]>
  (<["PATH" := bin +:+ ":" +:+ Js.template (process_env h !! "PATH")]>
     ∅)))))))))).

(** The argument list that [build] hands to cargo. *)
Definition build_args (options : BuildOptions) : list string :=
  let target := options_target options in
  let configuration := configuration_name (options_configuration options) in
  let args := ["build"; "--target"; triple target] in
  let args :=
    if decide (Js.toLowerCase configuration = "release")
    then args ++ ["--release"]
    else args in
  if isThirdTierTarget target
  then ("+nightly" :: args) ++ ["-Z"; "build-std=std,panic_abort"]
  else args.

(** The files of the output directory that are dynamic libraries. *)
Definition dynamicLibraryFiles (entries : list string) : list string :=
  List.filter
    (fun file => Js.endsWith file ".so" || Js.endsWith file ".dylib")
    entries.

(** The directory in which cargo leaves what it built. *)
Definition targetOutputPath (h : Host) (options : BuildOptions) : string :=
  path_join [process_cwd h; "target"; triple (options_target options);
             configuration_name (options_configuration options)].

(** The invocation of cargo: the target environment is spread over the
    ambient one, [{ ...process.env, ...targetEnv }]. *)
Definition cargo_invocation (h : Host) (options : BuildOptions)
    (targetEnv : gmap string string) : Invocation :=
  {| inv_command := "cargo";
     inv_args := build_args options;
     inv_env := targetEnv ∪ process_env h |}.

(** [build]: the invocations it made, and its result. *)
Definition build (h : Host) (options : BuildOptions)
  : list Invocation * Result string :=
  match getTargetEnvironmentVariables h options with
  | inl e => ([], inl e)
  | inr targetEnv =>
      let cargo := cargo_invocation h options targetEnv in
      ([cargo],
       let! h' := spawn cargo h in
       let! targetOutputPath :=
         joinPathAndAssertExistence h'
           [process_cwd h'; "target"; triple (options_target options);
            configuration_name (options_configuration options)] in
       match readdirSync h' targetOutputPath with
       | inl error => throw error
       | inr entries =>
           let dynamicLibraryFile := dynamicLibraryFiles entries in
           do! assert (bool_decide (length dynamicLibraryFile = 1%nat))
                 ("Expected a single shared object file in "
                    +:+ targetOutputPath) in
           joinPathAndAssertExistence h'
             [targetOutputPath; default "undefined" (head dynamicLibraryFile)]
       end)
  end.

End Resolver.
End Cargo.

Import Cargo.

(** ** The link command of the host CLI *)

Inductive PlatformName := platform_android | platform_apple.

Definition platform_name (platform : PlatformName) : string :=
  match platform with
  | platform_android => "android"
  | platform_apple => "apple"
  end.

(** What a failed copy carries: its message and the captured output. *)
Record SpawnFailure := {
  failure_message : string;
  failure_output : string
}.

(** The result of linking one module: a success record or a failure
    record. *)
Inductive LinkedModuleOutput :=
| Linked (originalPath outputPath : string) (skipped : bool)
| Failed (originalPath : string) (failure : SpawnFailure).

Definition has_failure (result : LinkedModuleOutput) : bool :=
  match result with Failed _ _ => true | Linked _ _ _ => false end.

Definition has_outputPath (result : LinkedModuleOutput) : bool :=
  match result with Linked _ _ _ => true | Failed _ _ => false end.

Definition originalPath_of (result : LinkedModuleOutput) : string :=
  match result with
  | Linked originalPath _ _ => originalPath
  | Failed originalPath _ => originalPath
  end.

Record NamingStrategy := {
  naming_packageName : option string;
  naming_pathSuffix : option string
}.

(** What a platform linker is called with, and what it answers. *)
Record LinkModuleOptions := {
  modulePath : string;
  module_incremental : bool;
  module_naming : NamingStrategy;
  module_platform : PlatformName
}.

(** A platform linker materializes the output of one module, or fails with
    the failure of its copy. *)
Definition ModuleLinker : Type := LinkModuleOptions -> SpawnFailure + unit.

Record LinkModulesOptions := {
  link_platform : PlatformName;
  link_fromPath : string;
  link_incremental : bool;
  link_naming : NamingStrategy;
  link_linker : ModuleLinker
}.

(** What the command does that can be observed, in the order it does it. *)
Inductive Event :=
| console_log (args : list string)
| console_error (args : list string)
| ora_start (text : string)
| ora_succeed (text : string)
| ora_fail (text : string)
| flushOutput (failure : SpawnFailure)
| call_pruneLinkedModules (platform : PlatformName)
    (modules : list LinkedModuleOutput)
| call_restoreFrameworkLinks (frameworkPath : string).

Record Process := {
  exitCode : option Z;         (* process.exitCode *)
  events : list Event
}.

(** An action runs in a process, changes it, and returns or throws. *)
Definition Act (A : Type) : Type := Process -> Process * Result A.

Definition act_ret {A} (x : A) : Act A := fun p => (p, inr x).

Definition act_bind {A B} (m : Act A) (k : A -> Act B) : Act B :=
  fun p =>
    match m p with
    | (p', inr x) => k x p'
    | (p', inl e) => (p', inl e)
    end.

Notation "'let*' x ':=' m 'in' k" := (act_bind m (fun x => k))
  (at level 10, x pattern, m at level 100, k at level 200).
Notation "'do*' m 'in' k" := (act_bind m (fun _ => k))
  (at level 10, m at level 100, k at level 200).

Definition lift {A} (r : Result A) : Act A := fun p => (p, r).

Definition emit (e : Event) : Act unit :=
  fun p => ({| exitCode := exitCode p; events := events p ++ [e] |}, inr tt).

Definition set_exitCode (code : Z) : Act unit :=
  fun p => ({| exitCode := Some code; events := events p |}, inr tt).

(** [for (const x of xs) { body }] *)
Fixpoint for_of {A} (xs : list A) (body : A -> Act unit) : Act unit :=
  match xs with
  | [] => act_ret tt
  | x :: rest => do* body x in for_of rest body
  end.

(** [oraPromise(action, { text, successText, failText })] of the ora
    package: a spinner is started, the action awaited, the spinner ended
    with one of the two texts, and the outcome of the action handed on. *)
Definition oraPromise {A} (action : Act A) (text successText : string)
    (failText : Error -> string) : Act A :=
  fun p =>
    match (do* emit (ora_start text) in action) p with
    | (p', inr x) => (do* emit (ora_succeed successText) in act_ret x) p'
    | (p', inl e) => (do* emit (ora_fail (failText e)) in lift (inl e)) p'
    end.


(** Modelled from the spec: [wrapAction] of cli-utils, which is not among
    the sources.  Section 7: errors that are fatal to their run are reported
    to the caller.  The wrapper runs the function it is given and catches
    what that function throws: it then sets [process.exitCode] to 1, writes
    its report of the error, and itself returns.  What the report holds is
    left to [report]. *)
Definition wrapAction (report : Error -> list Event) (action : Act unit)
  : Act unit :=
  fun p =>
    match action p with
    | (p', inr _) => (p', inr tt)
    | (p', inl error) =>
        ({| exitCode := Some 1%Z; events := events p' ++ report error |},
         inr tt)
    end.

(** The first rejection among the promises handed to [Promise.all]. *)
Fixpoint first_rejection (results : list (Result unit)) : Result unit :=
  match results with
  | [] => inr tt
  | inl e :: _ => inl e
  | inr _ :: rest => first_rejection rest
  end.

(** The options of [link] as the action receives them. *)
Record LinkOptions := {
  force : bool;
  prune : bool;
  android : bool;
  apple : bool;
  packageName : option string;
  pathSuffix : option string
}.

(** The command line of [link]: which arguments and flags are present. *)
Record LinkCommandLine := {
  given_path : option string;
  given_force : bool;
  given_prune : bool;
  given_android : bool;
  given_apple : bool;
  given_packageName : option string;
  given_pathSuffix : option string
}.

(** A boolean [.option(flag, description, defaultValue)]: the flag sets it
    to true, its absence leaves the default. *)
Definition boolean_option (given : bool) (defaultValue : bool) : bool :=
  if given then true else defaultValue.

Definition link_options (line : LinkCommandLine) : LinkOptions :=
  {| force := boolean_option (given_force line) false;
     prune := boolean_option (given_prune line) true;
     android := boolean_option (given_android line) false;
     apple := boolean_option (given_apple line) false;
     packageName := given_packageName line;
     pathSuffix := given_pathSuffix line |}.

Module Cli.
Section Link.

(** node:path and node:fs *)
Variable path_join : list string -> string.
Variable path_resolve : string -> string.
Variable path_basename : string -> string.
Variable fs_existsSync : string -> bool.

(** cli-utils *)
Variable chalk_dim chalk_bold chalk_greenBright chalk_redBright
  : string -> string.
Variable prettyPath : string -> string.

(** path-utils, link-modules, apple, android, weak-node-api *)
Variable PLATFORMS : list PlatformName.
Variable getAutolinkPath : PlatformName -> string.
Variable linkModules : LinkModulesOptions -> Result (list LinkedModuleOutput).
Variable pruneLinkedModules :
  PlatformName -> list LinkedModuleOutput -> Result unit.
Variable linkXcframework linkAndroidDir : ModuleLinker.
Variable restoreFrameworkLinks : string -> Result unit.
Variable applePrebuildPath : string.

Definition getLinker (platform : PlatformName) : ModuleLinker :=
  match platform with
  | platform_android => linkAndroidDir
  | platform_apple => linkXcframework
  end.

Definition getPlatformDisplayName (platform : PlatformName) : string :=
  match platform with
  | platform_android => "Android"
  | platform_apple => "Apple"
  end.

(** The platforms that the flags select, in the order of the action. *)
Definition selected_platforms (options : LinkOptions) : list PlatformName :=
  (if android options then [platform_android] else [])
    ++ (if apple options then [platform_apple] else []).

Definition linkModules_options (pathArg : string) (options : LinkOptions)
    (platform : PlatformName) : LinkModulesOptions :=
  {| link_platform := platform;
     link_fromPath := path_resolve pathArg;
     link_incremental := negb (force options);
     link_naming := {| naming_packageName := packageName options;
                       naming_pathSuffix := pathSuffix options |};
     link_linker := getLinker platform |}.

Definition report_linked (result : LinkedModuleOutput) : Act unit :=
  match result with
  | Linked originalPath outputPath skipped =>
      let prettyOutputPath :=
        if Js.truthy outputPath
        then "→ " +:+ prettyPath (path_basename outputPath)
        else EmptyString in
      if skipped
      then emit (console_log [chalk_greenBright "-"; "Skipped";
                              prettyPath originalPath; prettyOutputPath;
                              "(up to date)"])
      else emit (console_log [chalk_greenBright "⚭"; "Linked";
                              prettyPath originalPath; prettyOutputPath])
  | Failed _ _ => act_ret tt
  end.

Definition report_failure (result : LinkedModuleOutput) : Act unit :=
  match result with
  | Failed originalPath failure =>
      (* assert(failure instanceof SpawnFailure) holds by the type *)
      do* emit (console_error [Js.newline; chalk_redBright "✖";
                               "Failed to copy"; prettyPath originalPath]) in
      do* emit (console_error [failure_message failure]) in
      do* emit (flushOutput failure) in
      set_exitCode 1
  | Linked _ _ _ => act_ret tt
  end.

(** The body of the loop over the selected platforms. *)
Definition link_one_platform (pathArg : string) (options : LinkOptions)
    (platform : PlatformName) : Act unit :=
  let platformDisplayName := getPlatformDisplayName platform in
  let platformOutputPath := getAutolinkPath platform in
  let where_ :=
    platformDisplayName +:+ " Node-API modules into "
      +:+ prettyPath platformOutputPath in
  let* modules :=
    oraPromise (lift (linkModules (linkModules_options pathArg options platform)))
      ("Linking " +:+ where_)
      ("Linked " +:+ where_)
      (fun _ => "Failed to link " +:+ where_) in
  do* (if decide (length modules = 0%nat)
       then emit (console_log ["Found no Node-API modules 🤷"])
       else act_ret tt) in
  let failures := List.filter has_failure modules in
  let linked := List.filter has_outputPath modules in
  do* for_of linked report_linked in
  do* for_of failures report_failure in
  if prune options
  then do* emit (call_pruneLinkedModules platform modules) in
       lift (pruneLinkedModules platform modules)
  else act_ret tt.

(** What the two report loops write for one result. *)
Definition linked_events (result : LinkedModuleOutput) : list Event :=
  match result with
  | Linked originalPath outputPath skipped =>
      let prettyOutputPath :=
        if Js.truthy outputPath
        then "→ " +:+ prettyPath (path_basename outputPath)
        else EmptyString in
      if skipped
      then [console_log [chalk_greenBright "-"; "Skipped";
                         prettyPath originalPath; prettyOutputPath;
                         "(up to date)"]]
      else [console_log [chalk_greenBright "⚭"; "Linked";
                         prettyPath originalPath; prettyOutputPath]]
  | Failed _ _ => []
  end.

Definition failure_events (result : LinkedModuleOutput) : list Event :=
  match result with
  | Failed originalPath failure =>
      [console_error [Js.newline; chalk_redBright "✖"; "Failed to copy";
                      prettyPath originalPath];
       console_error [failure_message failure];
       flushOutput failure]
  | Linked _ _ _ => []
  end.

(** What the loop body writes for a platform whose link results are
    [modules], up to the call of [pruneLinkedModules]. *)
Definition platform_reports (platform : PlatformName)
    (modules : list LinkedModuleOutput) : list Event :=
  let where_ :=
    getPlatformDisplayName platform +:+ " Node-API modules into "
      +:+ prettyPath (getAutolinkPath platform) in
  [ora_start ("Linking " +:+ where_); ora_succeed ("Linked " +:+ where_)]
    ++ (if decide (length modules = 0%nat)
        then [console_log ["Found no Node-API modules 🤷"]] else [])
    ++ flat_map linked_events (List.filter has_outputPath modules)
    ++ flat_map failure_events (List.filter has_failure modules).

(** The macOS slices whose framework links are restored. *)
Definition restored_slices : list string :=
  [path_join [applePrebuildPath; "macos-x86_64"];
   path_join [applePrebuildPath; "macos-arm64"];
   path_join [applePrebuildPath; "macos-arm64_x86_64"]].

(** [Promise.all] over the slices: the callbacks are started in turn, each
    restoring the framework of its slice when there is one, and the first
    rejection is the one thrown. *)
Definition restore_all : Act unit :=
  let frameworks :=
    List.filter fs_existsSync
      (map (fun slicePath => path_join [slicePath; "weak-node-api.framework"])
           restored_slices) in
  do* for_of frameworks
        (fun frameworkPath => emit (call_restoreFrameworkLinks frameworkPath)) in
  lift (first_rejection (map restoreFrameworkLinks frameworks)).

(** The function that [link] hands to [wrapAction]; the command wraps it,
    see [Program.link]. *)
Definition link_action (pathArg : string) (options : LinkOptions) : Act unit :=
  do* emit (console_log ["Auto-linking Node-API modules from";
                         chalk_dim pathArg]) in
  let platforms := selected_platforms options in
  if decide (length platforms = 0%nat)
  then
    do* emit (console_error
                ("No platform specified, pass one or more of:"
                   :: map (fun platform =>
                             chalk_bold (Js.newline +:+ "  --"
                                           +:+ platform_name platform))
                          PLATFORMS)) in
    set_exitCode 1
  else
    do* for_of platforms (link_one_platform pathArg options) in
    if apple options
    then oraPromise restore_all
           "Restoring weak-node-api symlinks"
           "Restored weak-node-api symlinks"
           (fun error => "Failed to restore weak-node-api symlinks: "
                           +:+ error_message error)
    else act_ret tt.

(** That function as commander calls it: the options are read off the
    command line, the path argument defaults to the working directory. *)
Definition link_command (cwd : string) (line : LinkCommandLine)
  : Act unit :=
  link_action (default cwd (given_path line)) (link_options line).

End Link.
End Cli.

Import Cli.

Module LinkModules.
Section Engine.

(** The Discovery Engine: the paths of the modules reachable from a root,
    for one platform. *)
Variable discover : PlatformName -> string -> Result (list string).

(** The Canonical Naming Engine and the platform output tree: where the
    output of a module is expected. *)
Variable expected_output : PlatformName -> NamingStrategy -> string -> string.

(** Whether an output exists with a modification time at or after that of
    its source. *)
Variable up_to_date : string -> string -> bool.

(** Modelled from the spec: [linkModules] of link-modules.ts, which is not
    among the sources.  Section 4.4, for every module returned by
    Discovery: compute its expected output location; if [incremental] is
    enabled and the output is up to date, record a skipped success;
    otherwise invoke the platform-specific linker, and convert a failure of
    the external copy to a failure record carrying the captured process
    output, never letting a single module failure abort the remaining
    batch. *)
Definition linkModule (options : LinkModulesOptions) (originalPath : string)
  : LinkedModuleOutput :=
  let outputPath :=
    expected_output (link_platform options) (link_naming options)
      originalPath in
  if link_incremental options && up_to_date originalPath outputPath
  then Linked originalPath outputPath true
  else
    match link_linker options
            {| modulePath := originalPath;
               module_incremental := link_incremental options;
               module_naming := link_naming options;
               module_platform := link_platform options |} with
    | inr _ => Linked originalPath outputPath false
    | inl failure => Failed originalPath failure
    end.

Definition linkModules_spec (options : LinkModulesOptions)
  : Result (list LinkedModuleOutput) :=
  let! modules := discover (link_platform options) (link_fromPath options) in
  ok (map (linkModule options) modules).

End Engine.
End LinkModules.

Import LinkModules.

(** ** How a process moves on *)

(** [p'] comes after [p]: it has the events of [p] and maybe more, and an
    exit code of 1 stays. *)
Definition moves_on (p p' : Process) : Prop :=
  (exists more, events p' = events p ++ more) /\
  (exitCode p = Some 1%Z -> exitCode p' = Some 1%Z).

(** An action that only ever moves the process on. *)
Definition steady {A} (m : Act A) : Prop :=
  forall p, moves_on p (fst (m p)).

(** ** A host to run on *)

Module Sample.

(** Segments joined by a slash: what [path.join] of a POSIX host gives for
    segments that are already normalized, as all those below are. *)
Definition path_join (segments : list string) : string :=
  Js.join "/" segments.

Definition applePrebuildPath : string :=
  "/wna/build/Release/weak-node-api.xcframework".

Definition androidPrebuildPath : string :=
  "/wna/build/Release/weak-node-api.android.node".

Definition isThirdTierTarget (target : TargetName) : bool :=
  match target with
  | AppleTarget aarch64_apple_visionos
  | AppleTarget aarch64_apple_visionos_sim => true
  | _ => false
  end.

Definition ndk : string := "/sdk/ndk/27.1.12297006".
Definition prebuilt : string := ndk +:+ "/toolchains/llvm/prebuilt".
Definition bin : string := prebuilt +:+ "/linux-x86_64/bin".

Definition files : list string :=
  ["/sdk"; ndk; prebuilt; bin;
   bin +:+ "/aarch64-linux-android24-clang";
   bin +:+ "/armv7a-linux-androideabi24-clang";
   bin +:+ "/armv7a-linux-androideabi24-clang++";
   bin +:+ "/x86_64-linux-android24-clang";
   bin +:+ "/i686-linux-android24-clang";
   bin +:+ "/llvm-ar";
   bin +:+ "/llvm-ranlib";
   androidPrebuildPath +:+ "/armeabi-v7a";
   applePrebuildPath +:+ "/macos-arm64_x86_64";
   applePrebuildPath +:+ "/macos-arm64";
   applePrebuildPath +:+ "/xros-arm64-simulator"].

Definition directories : list (string * list string) :=
  [(prebuilt, ["linux-x86_64"])].

Definition exists_in (paths : list string) (p : string) : bool :=
  bool_decide (p ∈ paths).

Definition listing (dirs : list (string * list string)) (p : string)
  : Result (list string) :=
  match find (fun dir => bool_decide (fst dir = p)) dirs with
  | Some dir => inr (snd dir)
  | None => inl (ENOENT p)
  end.

Definition host : Host :=
  {| process_env :=
       <["ANDROID_HOME" := "/sdk"]>
       (<["PATH" := "/usr/bin:/bin"]>
       (<["HOME" := "/home/dev"]> ∅));
     process_platform := "linux";
     process_cwd := "/app";
     existsSync := exists_in files;
     readdirSync := listing directories |}.

(** The same host with another search path. *)
Definition host_other_path : Host :=
  {| process_env :=
       <["ANDROID_HOME" := "/sdk"]>
       (<["PATH" := "/opt/bin"]>
       (<["HOME" := "/home/dev"]> ∅));
     process_platform := "linux";
     process_cwd := "/app";
     existsSync := exists_in files;
     readdirSync := listing directories |}.

(** A host that differs from [host] in what the resolver does not read. *)
Definition host_elsewhere : Host :=
  {| process_env :=
       <["ANDROID_HOME" := "/sdk"]>
       (<["PATH" := "/usr/bin:/bin"]>
       (<["HOME" := "/home/ci"]> ∅));
     process_platform := "darwin";
     process_cwd := "/tmp/checkout";
     existsSync := exists_in files;
     readdirSync := listing directories |}.

Definition android_options : BuildOptions :=
  AndroidBuild release armv7_linux_androideabi "27.1.12297006" 24.

Definition apple_options : BuildOptions :=
  AppleBuild debug aarch64_apple_darwin None.

Definition visionos_options : BuildOptions :=
  AppleBuild release aarch64_apple_visionos_sim None.

(** What cargo leaves behind: the host after a build that produced
    [outputs] in the output directory of [options]. *)
Definition after_build (options : BuildOptions) (outputs : list string)
    (h : Host) : Host :=
  let out :=
    path_join [process_cwd h; "target"; triple (options_target options);
               configuration_name (options_configuration options)] in
  {| process_env := process_env h;
     process_platform := process_platform h;
     process_cwd := process_cwd h;
     existsSync := fun p =>
       existsSync h p
       || bool_decide (p = out)
       || bool_decide (p ∈ map (fun file => path_join [out; file]) outputs);
     readdirSync := fun p =>
       if decide (p = out) then inr outputs else readdirSync h p |}.

(** A cargo that builds one library for the Android options. *)
Definition spawn (cargo : Invocation) (h : Host) : Result Host :=
  ok (after_build android_options
        ["build"; "deps"; "libaddon.d"; "libaddon.so"] h).


(** The mappings expected on [host]. *)
Definition android_env : gmap string string :=
  <["CARGO_ENCODED_RUSTFLAGS" :=
      Js.join Js.fromCharCode_0x1f
        ["-L"; androidPrebuildPath +:+ "/armeabi-v7a"; "-l"; "weak-node-api"]]>
  (<["CARGO_TARGET_AARCH64_LINUX_ANDROID_LINKER" :=
      bin +:+ "/aarch64-linux-android24-clang"]>
  (<["CARGO_TARGET_ARMV7_LINUX_ANDROIDEABI_LINKER" :=
      bin +:+ "/armv7a-linux-androideabi24-clang"]>
  (<["CARGO_TARGET_X86_64_LINUX_ANDROID_LINKER" :=
      bin +:+ "/x86_64-linux-android24-clang"]>
  (<["CARGO_TARGET_I686_LINUX_ANDROID_LINKER" :=
      bin +:+ "/i686-linux-android24-clang"]>
  (<["TARGET_CC" := bin +:+ "/armv7a-linux-androideabi24-clang"]>
  (<["TARGET_CXX" := bin +:+ "/armv7a-linux-androideabi24-clang++"]>
  (<["TARGET_AR" := bin +:+ "/llvm-ar"]>
  (<["TARGET_RANLIB" := bin +:+ "/llvm-ranlib"]>
  (<["ANDROID_NDK" := ndk]>
  (<["PATH" := bin +:+ ":/usr/bin:/bin"]> ∅)))))))))).

Definition apple_env : gmap string string :=
  <["CARGO_ENCODED_RUSTFLAGS" :=
      Js.join Js.fromCharCode_0x1f
        ["-L"; "framework=" +:+ applePrebuildPath +:+ "/macos-arm64_x86_64";
         "-l"; "framework=weak-node-api"]]> ∅.

(** An application with three Android modules: the copy of the second
    fails, the third is up to date. *)
Definition plain (s : string) : string := s.

Definition path_basename (p : string) : string :=
  List.last (Js.split "/" p) EmptyString.

Definition getAutolinkPath (platform : PlatformName) : string :=
  "/app/node_modules/react-native-node-api/auto-linked/"
    +:+ platform_name platform.

Definition module_a : string := "/app/node_modules/a/a.android.node".
Definition module_b : string := "/app/node_modules/b/b.android.node".
Definition module_c : string := "/app/node_modules/c/c.android.node".

Definition discover (platform : PlatformName) (fromPath : string)
  : Result (list string) :=
  match platform with
  | platform_android => ok [module_a; module_b; module_c]
  | platform_apple => ok []
  end.

Definition copy_failure : SpawnFailure :=
  {| failure_message := "cp exited with status 1";
     failure_output := "cp: cannot create directory" |}.

Definition linker (options : LinkModuleOptions) : SpawnFailure + unit :=
  if decide (modulePath options = module_b) then inl copy_failure else inr tt.

Definition expected_output (platform : PlatformName) (naming : NamingStrategy)
    (originalPath : string) : string :=
  getAutolinkPath platform +:+ "/" +:+ path_basename originalPath.

Definition up_to_date (source output : string) : bool :=
  bool_decide (source = module_c).

Definition pruneLinkedModules (platform : PlatformName)
    (modules : list LinkedModuleOutput) : Result unit := ok tt.

Definition restoreFrameworkLinks (frameworkPath : string) : Result unit :=
  ok tt.

Definition android_line : LinkCommandLine :=
  {| given_path := None;
     given_force := false;
     given_prune := false;
     given_android := true;
     given_apple := false;
     given_packageName := None;
     given_pathSuffix := None |}.

Definition bare_line : LinkCommandLine :=
  {| given_path := None;
     given_force := false;
     given_prune := false;
     given_android := false;
     given_apple := false;
     given_packageName := None;
     given_pathSuffix := None |}.

Definition start : Process := {| exitCode := None; events := [] |}.

Definition PLATFORMS : list PlatformName := [platform_android; platform_apple].

(** [link] on [host] with the modules above. *)
Definition link (line : LinkCommandLine) : Act unit :=
  link_command path_join plain path_basename (existsSync host)
    plain plain plain plain plain PLATFORMS getAutolinkPath
    (linkModules_spec discover expected_output up_to_date)
    pruneLinkedModules linker linker restoreFrameworkLinks applePrebuildPath
    (process_cwd host) line.

Definition android_modules : list LinkedModuleOutput :=
  [Linked module_a (getAutolinkPath platform_android +:+ "/a.android.node")
     false;
   Failed module_b copy_failure;
   Linked module_c (getAutolinkPath platform_android +:+ "/c.android.node")
     true].

(** Where [link --android] leaves the process. *)
Definition android_finish : Process :=
  {| exitCode := Some 1%Z;
     events :=
       [console_log ["Auto-linking Node-API modules from"; "/app"];
        ora_start
          ("Linking Android Node-API modules into "
             +:+ getAutolinkPath platform_android);
        ora_succeed
          ("Linked Android Node-API modules into "
             +:+ getAutolinkPath platform_android);
        console_log ["⚭"; "Linked"; module_a; "→ a.android.node"];
        console_log ["-"; "Skipped"; module_c; "→ c.android.node";
                     "(up to date)"];
        console_error [Js.newline; "✖"; "Failed to copy"; module_b];
        console_error ["cp exited with status 1"];
        flushOutput copy_failure;
        call_pruneLinkedModules platform_android android_modules] |}.

End Sample.

(** ** The variables of the Android branch, by name *)

Module CargoNames.

(** The variables whose values are paths that the branch asserts to
    exist. *)
Definition android_path_names : list string :=
  ["CARGO_TARGET_AARCH64_LINUX_ANDROID_LINKER";
   "CARGO_TARGET_ARMV7_LINUX_ANDROIDEABI_LINKER";
   "CARGO_TARGET_X86_64_LINUX_ANDROID_LINKER";
   "CARGO_TARGET_I686_LINUX_ANDROID_LINKER";
   "TARGET_CC"; "TARGET_CXX"; "TARGET_AR"; "TARGET_RANLIB";
   "ANDROID_NDK"].

(** All the variables that the branch sets. *)
Definition android_names : list string :=
  "CARGO_ENCODED_RUSTFLAGS" :: android_path_names ++ ["PATH"].

(** The linker variable of each Android target. *)
Definition linker_variable (target : AndroidTargetName) : string :=
  match target with
  | aarch64_linux_android => "CARGO_TARGET_AARCH64_LINUX_ANDROID_LINKER"
  | armv7_linux_androideabi => "CARGO_TARGET_ARMV7_LINUX_ANDROIDEABI_LINKER"
  | i686_linux_android => "CARGO_TARGET_I686_LINUX_ANDROID_LINKER"
  | x86_64_linux_android => "CARGO_TARGET_X86_64_LINUX_ANDROID_LINKER"
  end.

(** The files of the toolchain's bin directory that the branch asserts to
    exist, in the order it does. *)
Definition android_tool_names (h : Host) (target : AndroidTargetName)
    (androidApiLevel : Z) : list string :=
  let level := Js.number androidApiLevel in
  let arch := getTargetAndroidArch (android_triple target) in
  let platform := getTargetAndroidPlatform (android_triple target) in
  ["aarch64-linux-android" +:+ level +:+ "-clang" +:+ cmdMaybe h;
   "armv7a-linux-androideabi" +:+ level +:+ "-clang" +:+ cmdMaybe h;
   "x86_64-linux-android" +:+ level +:+ "-clang" +:+ cmdMaybe h;
   "i686-linux-android" +:+ level +:+ "-clang" +:+ cmdMaybe h;
   arch +:+ "-linux-" +:+ platform +:+ "-clang" +:+ cmdMaybe h;
   arch +:+ "-linux-" +:+ platform +:+ "-clang++" +:+ cmdMaybe h;
   "llvm-ar" +:+ exeMaybe h;
   "llvm-ranlib" +:+ exeMaybe h].

End CargoNames.

(** ** The CMake variables of cmake-rn (cmake-rn/src/weak-node-api.ts) *)

Module CmakeRn.

(** [path.win32.sep] and [path.posix.sep] *)
Definition win32_sep : ascii := ascii_of_nat 92.
Definition posix_sep : string := "/".

Definition toCmakePath (input : string) : string :=
  Js.join posix_sep (Js.split win32_sep input).

(** Every backslash of a string made a slash. *)
Fixpoint slashed (s : string) : string :=
  match s with
  | EmptyString => EmptyString
  | String c rest =>
      String (if decide (c = win32_sep) then ascii_of_nat 47 else c)
             (slashed rest)
  end.

Section Variables.

(** [path.join] of node:path. *)
Variable path_join : list string -> string.

(** The paths exported by the weak-node-api package. *)
Variable applePrebuildPath androidPrebuildPath weakNodeApiCmakePath : string.

(** [isAppleTriplet] and [isAndroidTriplet] of react-native-node-api, and
    the table [ANDROID_ARCHITECTURES] of platforms/android. *)
Variable isAppleTriplet isAndroidTriplet : string -> bool.
Variable ANDROID_ARCHITECTURES : string -> string.

(** [getNodeApiHeadersPath()] and [getNodeAddonHeadersPath()] of headers:
    each gives a path or throws. *)
Variable getNodeApiHeadersPath getNodeAddonHeadersPath : Result string.

Definition getWeakNodeApiPath (h : Host) (triplet : string) : Result string :=
  if bool_decide (triplet = "apple") || isAppleTriplet triplet
  then
    do! assert (existsSync h applePrebuildPath)
          ("Expected an XCFramework at " +:+ applePrebuildPath) in
    ok applePrebuildPath
  else if isAndroidTriplet triplet
  then
    let libraryPath :=
      path_join [androidPrebuildPath; ANDROID_ARCHITECTURES triplet;
                 "libweak-node-api.so"] in
    do! assert (existsSync h libraryPath)
          ("Expected library at " +:+ libraryPath) in
    ok libraryPath
  else throw (JsError ("Unexpected triplet: " +:+ triplet)).

(** [for (const includePath of includePaths) assert(...)] *)
Fixpoint assert_no_semicolon (includePaths : list string) : Result unit :=
  match includePaths with
  | [] => ok tt
  | includePath :: rest =>
      do! assert (negb (Js.includes includePath ";"))
            ("Include path with a ';' is not supported: " +:+ includePath) in
      assert_no_semicolon rest
  end.

Definition getNodeApiIncludePaths : Result (list string) :=
  let! nodeApiHeaders := getNodeApiHeadersPath in
  let! nodeAddonHeaders := getNodeAddonHeadersPath in
  let includePaths := [nodeApiHeaders; nodeAddonHeaders] in
  do! assert_no_semicolon includePaths in
  ok includePaths.

Definition getWeakNodeApiVariables (h : Host) (triplet : string)
  : Result (gmap string string) :=
  let! includePaths := getNodeApiIncludePaths in
  let! lib := getWeakNodeApiPath h triplet in
  ok (<["WEAK_NODE_API_CONFIG" := weakNodeApiCmakePath]>
     (<["WEAK_NODE_API_INC" := Js.join ";" includePaths]>
     (<["WEAK_NODE_API_LIB" := lib]> ∅))).

(** For compatibility with cmake-js *)
Definition getCmakeJSVariables (h : Host) (triplet : string)
  : Result (gmap string string) :=
  let! includePaths := getNodeApiIncludePaths in
  let! lib := getWeakNodeApiPath h triplet in
  ok (<["CMAKE_JS_INC" := Js.join ";" includePaths]>
     (<["CMAKE_JS_LIB" := lib]> ∅)).

End Variables.
End CmakeRn.

(** ** The list command of the host CLI *)

(** One entry of what discovery returns: the root of a package and the
    modules inside it. *)
Record Dependency := {
  dependency_path : string;
  modulePaths : list string
}.

Module CliList.
Section List.

Variable path_join : list string -> string.
Variable path_resolve : string -> string.
Variable chalk_greenBright chalk_blueBright : string -> string.
Variable prettyPath : string -> string.
Variable PLATFORMS : list PlatformName.

(** [JSON.stringify(dependencies, null, 2)] *)
Variable JSON_stringify : list (string * Dependency) -> string.

(** path-utils: discovery, which gives the packages in the order of
    [Object.entries], and the library map with its picture. *)
Variable LibraryMap : Type.
Variable findNodeApiModulePathsByDependency :
  string -> list PlatformName -> bool -> Result (list (string * Dependency)).
Variable getLibraryMap : list string -> NamingStrategy -> Result LibraryMap.
Variable visualizeLibraryMap : LibraryMap -> Result string.

(** [Object.values(dependencies).reduce((acc, { modulePaths }) =>
    acc + modulePaths.length, 0)] *)
Definition xframeworkCount (dependencies : list (string * Dependency)) : nat :=
  fold_left (fun acc entry => (acc + length (modulePaths (snd entry)))%nat)
            dependencies 0%nat.

Definition list_dependency (naming : NamingStrategy)
    (entry : string * Dependency) : Act unit :=
  let '(dependencyName, dependency) := entry in
  do* emit (console_log [Js.newline +:+ chalk_blueBright dependencyName;
                         "→"; prettyPath (dependency_path dependency)]) in
  let* libraryMap :=
    lift (getLibraryMap
            (map (fun p => path_join [dependency_path dependency; p])
                 (modulePaths dependency))
            naming) in
  let* picture := lift (visualizeLibraryMap libraryMap) in
  emit (console_log [picture]).

(** The function that [list] hands to [wrapAction]; the command wraps it,
    see [Program.list]. *)
Definition list_action (fromArg : string) (json : bool)
    (naming : NamingStrategy) : Act unit :=
  let rootPath := path_resolve fromArg in
  let* dependencies :=
    lift (findNodeApiModulePathsByDependency rootPath PLATFORMS true) in
  if json
  then emit (console_log [JSON_stringify dependencies])
  else
    let dependencyCount := length dependencies in
    do* emit (console_log
                ["Found";
                 chalk_greenBright
                   (Js.number (Z.of_nat (xframeworkCount dependencies)));
                 "Node-API modules in";
                 chalk_greenBright (Js.number (Z.of_nat dependencyCount));
                 (if decide (dependencyCount = 1%nat)
                  then "package" else "packages");
                 "from";
                 prettyPath rootPath]) in
    for_of dependencies (list_dependency naming).

(** The picture of the library map of one package. *)
Definition picture (naming : NamingStrategy) (entry : string * Dependency)
  : Result string :=
  let! libraryMap :=
    getLibraryMap
      (map (fun p => path_join [dependency_path (snd entry); p])
           (modulePaths (snd entry)))
      naming in
  visualizeLibraryMap libraryMap.

(** The first line of the listing, and the two lines of one package. *)
Definition list_header (rootPath : string)
    (dependencies : list (string * Dependency)) : Event :=
  console_log
    ["Found";
     chalk_greenBright (Js.number (Z.of_nat (xframeworkCount dependencies)));
     "Node-API modules in";
     chalk_greenBright (Js.number (Z.of_nat (length dependencies)));
     (if decide (length dependencies = 1%nat) then "package" else "packages");
     "from";
     prettyPath rootPath].

Definition entry_events (naming : NamingStrategy)
    (entry : string * Dependency) : list Event :=
  [console_log [Js.newline +:+ chalk_blueBright (fst entry); "→";
                prettyPath (dependency_path (snd entry))];
   console_log [match picture naming entry with
                | inr drawn => drawn
                | inl _ => EmptyString
                end]].

End List.
End CliList.

(** ** The commands as the program registers them *)

(** The command line of [list]. *)
Record ListCommandLine := {
  given_from_path : option string;
  given_json : bool;
  list_packageName : option string;
  list_pathSuffix : option string
}.

Module Program.
Section Commands.

Variable path_join : list string -> string.
Variable path_resolve path_basename : string -> string.
Variable fs_existsSync : string -> bool.
Variable chalk_dim chalk_bold chalk_greenBright chalk_redBright
  chalk_blueBright : string -> string.
Variable prettyPath : string -> string.
Variable PLATFORMS : list PlatformName.
Variable getAutolinkPath : PlatformName -> string.
Variable linkModules : LinkModulesOptions -> Result (list LinkedModuleOutput).
Variable pruneLinkedModules :
  PlatformName -> list LinkedModuleOutput -> Result unit.
Variable linkXcframework linkAndroidDir : ModuleLinker.
Variable restoreFrameworkLinks : string -> Result unit.
Variable applePrebuildPath : string.
Variable JSON_stringify : list (string * Dependency) -> string.
Variable LibraryMap : Type.
Variable findNodeApiModulePathsByDependency :
  string -> list PlatformName -> bool -> Result (list (string * Dependency)).
Variable getLibraryMap : list string -> NamingStrategy -> Result LibraryMap.
Variable visualizeLibraryMap : LibraryMap -> Result string.

(** What [wrapAction] writes for an error. *)
Variable report : Error -> list Event.

(** [program.command("link") ... .action(wrapAction(async (pathArg,
    options) => ...))] *)
Definition link (cwd : string) (line : LinkCommandLine) : Act unit :=
  wrapAction report
    (Cli.link_command path_join path_resolve path_basename fs_existsSync
       chalk_dim chalk_bold chalk_greenBright chalk_redBright prettyPath
       PLATFORMS getAutolinkPath linkModules pruneLinkedModules
       linkXcframework linkAndroidDir restoreFrameworkLinks applePrebuildPath
       cwd line).

(** [program.command("list") ... .action(wrapAction(async (fromArg,
    options) => ...))]: the path defaults to the working directory,
    [--json] to false. *)
Definition list (cwd : string) (line : ListCommandLine) : Act unit :=
  wrapAction report
    (CliList.list_action path_join path_resolve chalk_greenBright
       chalk_blueBright prettyPath PLATFORMS JSON_stringify LibraryMap
       findNodeApiModulePathsByDependency getLibraryMap visualizeLibraryMap
       (default cwd (given_from_path line))
       (boolean_option (given_json line) false)
       {| naming_packageName := list_packageName line;
          naming_pathSuffix := list_pathSuffix line |}).

End Commands.
End Program.

(** ** What a run of link writes *)

Module CliTrace.
Section Trace.

Variable path_join : list string -> string.
Variable path_resolve path_basename : string -> string.
Variable fs_existsSync : string -> bool.
Variable chalk_dim chalk_greenBright chalk_redBright : string -> string.
Variable prettyPath : string -> string.
Variable getAutolinkPath : PlatformName -> string.
Variable linkModules : LinkModulesOptions -> Result (list LinkedModuleOutput).
Variable linkXcframework linkAndroidDir : ModuleLinker.
Variable applePrebuildPath : string.

(** The link results of a platform, none when linking threw. *)
Definition link_results (pathArg : string) (options : LinkOptions)
    (platform : PlatformName) : list LinkedModuleOutput :=
  match linkModules
          (Cli.linkModules_options path_resolve linkXcframework linkAndroidDir
             pathArg options platform) with
  | inr modules => modules
  | inl _ => []
  end.

(** What one round of the loop over the platforms writes. *)
Definition round_events (pathArg : string) (options : LinkOptions)
    (platform : PlatformName) : list Event :=
  let modules := link_results pathArg options platform in
  Cli.platform_reports path_basename chalk_greenBright chalk_redBright
    prettyPath getAutolinkPath platform modules
    ++ (if prune options
        then [call_pruneLinkedModules platform modules] else []).

(** The frameworks of the macOS slices that exist. *)
Definition restored_frameworks : list string :=
  List.filter fs_existsSync
    (map (fun slicePath => path_join [slicePath; "weak-node-api.framework"])
         (Cli.restored_slices path_join applePrebuildPath)).

(** What the restoration of the symlinks writes when it ends well. *)
Definition restore_events : list Event :=
  [ora_start "Restoring weak-node-api symlinks"]
    ++ map call_restoreFrameworkLinks restored_frameworks
    ++ [ora_succeed "Restored weak-node-api symlinks"].

Definition any_failure (pathArg : string) (options : LinkOptions)
    (platforms : list PlatformName) : bool :=
  existsb (fun platform =>
             existsb has_failure (link_results pathArg options platform))
          platforms.

End Trace.
End CliTrace.

(** ** More hosts to run on *)

Module SampleMore.

(** The sample host with [files] and [directories] replaced. *)
Definition host_with (env : gmap string string) (files : list string)
    (directories : list (string * list string)) : Host :=
  {| process_env := env;
     process_platform := "linux";
     process_cwd := "/app";
     existsSync := Sample.exists_in files;
     readdirSync := Sample.listing directories |}.

(** No SDK root in the environment. *)
Definition host_without_sdk : Host :=
  host_with (<["PATH" := "/usr/bin:/bin"]> ∅) Sample.files Sample.directories.

(** The SDK is there, the NDK is not. *)
Definition host_without_ndk : Host :=
  host_with (process_env Sample.host) ["/sdk"] [].

(** Two toolchains under the NDK. *)
Definition host_two_toolchains : Host :=
  host_with (process_env Sample.host) Sample.files
    [(Sample.prebuilt, ["linux-x86_64"; "darwin-x86_64"])].

(** A cargo that fails. *)
Definition spawn_failing (cargo : Invocation) (h : Host) : Result Host :=
  throw (SpawnFailed "cargo exited with status 101" "error: could not compile").

(** A cargo that ends well and leaves nothing. *)
Definition spawn_nothing (cargo : Invocation) (h : Host) : Result Host :=
  ok h.

(** cmake-rn on the sample host. *)
Definition isAppleTriplet (triplet : string) : bool :=
  Js.includes triplet "-apple-".

Definition isAndroidTriplet (triplet : string) : bool :=
  Js.includes triplet "-linux-android".

Definition ANDROID_ARCHITECTURES (triplet : string) : string :=
  if decide (triplet = "aarch64-linux-android") then "arm64-v8a"
  else if decide (triplet = "armv7a-linux-androideabi") then "armeabi-v7a"
  else if decide (triplet = "i686-linux-android") then "x86"
  else "x86_64".

Definition cmake_host : Host :=
  host_with ∅
    [Sample.applePrebuildPath;
     Sample.androidPrebuildPath +:+ "/arm64-v8a/libweak-node-api.so"]
    [].

Definition headers : string := "/app/node_modules/node-api-headers/include".
Definition addon_headers : string := "/app/node_modules/node-addon-api".

(** Discovery for [list]: two packages, three modules. *)
Definition dependencies : list (string * Dependency) :=
  [("a", {| dependency_path := "/app/node_modules/a";
            modulePaths := ["a.android.node"; "a.apple.node"] |});
   ("b", {| dependency_path := "/app/node_modules/b";
            modulePaths := ["b.android.node"] |})].

Definition findNodeApiModulePathsByDependency (fromPath : string)
    (platforms : list PlatformName) (includeSelf : bool)
  : Result (list (string * Dependency)) :=
  ok dependencies.

Definition getLibraryMap (paths : list string) (naming : NamingStrategy)
  : Result (list string) := ok paths.

Definition visualizeLibraryMap (libraryMap : list string) : Result string :=
  ok (Js.join Js.newline libraryMap).

Definition both_line : LinkCommandLine :=
  {| given_path := None;
     given_force := false;
     given_prune := false;
     given_android := true;
     given_apple := true;
     given_packageName := None;
     given_pathSuffix := None |}.


(** A host with the linkers of two API levels. *)
Definition host_two_levels : Host :=
  host_with (process_env Sample.host)
    (Sample.files
       ++ [Sample.bin +:+ "/aarch64-linux-android21-clang";
           Sample.bin +:+ "/armv7a-linux-androideabi21-clang";
           Sample.bin +:+ "/x86_64-linux-android21-clang";
           Sample.bin +:+ "/i686-linux-android21-clang"])
    Sample.directories.

Definition android_options_21 : BuildOptions :=
  AndroidBuild debug armv7_linux_androideabi "27.1.12297006" 21.

(** The mapping expected on [host_two_levels] at level 21. *)
Definition android_env_21 : gmap string string :=
  <["CARGO_ENCODED_RUSTFLAGS" :=
      Js.join Js.fromCharCode_0x1f
        ["-L"; Sample.androidPrebuildPath +:+ "/armeabi-v7a"; "-l";
         "weak-node-api"]]>
  (<["CARGO_TARGET_AARCH64_LINUX_ANDROID_LINKER" :=
      Sample.bin +:+ "/aarch64-linux-android21-clang"]>
  (<["CARGO_TARGET_ARMV7_LINUX_ANDROIDEABI_LINKER" :=
      Sample.bin +:+ "/armv7a-linux-androideabi21-clang"]>
  (<["CARGO_TARGET_X86_64_LINUX_ANDROID_LINKER" :=
      Sample.bin +:+ "/x86_64-linux-android21-clang"]>
  (<["CARGO_TARGET_I686_LINUX_ANDROID_LINKER" :=
      Sample.bin +:+ "/i686-linux-android21-clang"]>
  (<["TARGET_CC" := Sample.bin +:+ "/armv7a-linux-androideabi24-clang"]>
  (<["TARGET_CXX" := Sample.bin +:+ "/armv7a-linux-androideabi24-clang++"]>
  (<["TARGET_AR" := Sample.bin +:+ "/llvm-ar"]>
  (<["TARGET_RANLIB" := Sample.bin +:+ "/llvm-ranlib"]>
  (<["ANDROID_NDK" := Sample.ndk]>
  (<["PATH" := Sample.bin +:+ ":/usr/bin:/bin"]> ∅)))))))))).

(** A file system with the framework of one macOS slice. *)
Definition framework : string :=
  Sample.applePrebuildPath +:+ "/macos-arm64/weak-node-api.framework".

Definition framework_exists : string -> bool := Sample.exists_in [framework].

(** The function of [link] with both platforms. *)
Definition link_both : Act unit :=
  Cli.link_action Sample.path_join Sample.plain Sample.path_basename
    framework_exists Sample.plain Sample.plain Sample.plain Sample.plain
    Sample.plain Sample.PLATFORMS Sample.getAutolinkPath
    (linkModules_spec Sample.discover Sample.expected_output Sample.up_to_date)
    Sample.pruneLinkedModules Sample.linker Sample.linker
    Sample.restoreFrameworkLinks Sample.applePrebuildPath
    "/app" (link_options both_line).

(** [list] on the two packages. *)
Definition list_packages (json : bool) : Act unit :=
  CliList.list_action Sample.path_join Sample.plain Sample.plain Sample.plain
    Sample.plain Sample.PLATFORMS (fun _ => "{}") (list string)
    findNodeApiModulePathsByDependency getLibraryMap visualizeLibraryMap
    "/app" json
    {| naming_packageName := None; naming_pathSuffix := None |}.

(** The mapping expected on the sample host for the visionOS simulator. *)
Definition visionos_env : gmap string string :=
  <["CARGO_ENCODED_RUSTFLAGS" :=
      Js.join Js.fromCharCode_0x1f
        ["-L";
         "framework=" +:+ Sample.applePrebuildPath +:+ "/xros-arm64-simulator";
         "-l"; "framework=weak-node-api"]]> ∅.

(** A host whose prebuilt path is a file. *)
Definition host_prebuilt_is_file : Host :=
  {| process_env := process_env Sample.host;
     process_platform := "linux";
     process_cwd := "/app";
     existsSync := Sample.exists_in Sample.files;
     readdirSync := fun p =>
       if decide (p = Sample.prebuilt) then inl (ENOTDIR p)
       else Sample.listing [] p |}.

(** The wrapper writes an empty error line. *)
Definition report (error : Error) : list Event := [console_error []].








End SampleMore.

(** * Properties *)

(** ** The error monad *)

Lemma bind_ok {A B} (m : Result A) (k : A -> Result B) (y : B) :
  bind m k = inr y -> exists x, m = inr x /\ k x = inr y.
Proof. destruct m as [e|x]; simpl; [discriminate | eauto]. Qed.

Lemma bind_ext {A B} (m1 m2 : Result A) (k1 k2 : A -> Result B) :
  m1 = m2 -> (forall x, k1 x = k2 x) -> bind m1 k1 = bind m2 k2.
Proof. intros -> Hk. destruct m2; simpl; auto. Qed.

Lemma assert_ok (value : bool) (message : string) (u : unit) :
  assert value message = inr u -> value = true.
Proof. destruct value; simpl; [reflexivity | discriminate]. Qed.

Lemma assertFixable_ok (value : bool) (message : string) (remedy : Fix)
    (u : unit) :
  assertFixable value message remedy = inr u -> value = true.
Proof. destruct value; simpl; [reflexivity | discriminate]. Qed.

(** Take a successful run apart, one step at a time. *)
Ltac result_steps :=
  repeat match goal with
    | H : bind _ _ = inr _ |- _ =>
        let x := fresh "x" in
        let Hx := fresh "Hstep" in
        apply bind_ok in H; destruct H as (x & Hx & H)
    | H : assert _ _ = inr _ |- _ => apply assert_ok in H
    | H : assertFixable _ _ _ = inr _ |- _ => apply assertFixable_ok in H
    | H : ok _ = inr _ |- _ => injection H as H
    | H : inr _ = inr _ |- _ => injection H as H
    end.

(** ** Lists *)

Lemma find_first {A} (f : A -> bool) (l : list A) (x : A) :
  find f l = Some x <->
  exists before after,
    l = before ++ x :: after /\
    Forall (fun y => f y = false) before /\ f x = true.
Proof.
  induction l as [|a l IH]; simpl.
  - split; [discriminate |].
    intros (before & after & Heq & _). destruct before; discriminate.
  - destruct (f a) eqn:Ha.
    + split.
      * intros [= <-]. exists [], l. auto.
      * intros (before & after & Heq & Hall & Hx).
        destruct before as [|b before]; simpl in Heq.
        -- congruence.
        -- injection Heq as <- _. apply Forall_cons in Hall as [Hb _].
           congruence.
    + rewrite IH. split.
      * intros (before & after & -> & Hall & Hx).
        exists (a :: before), after. auto.
      * intros (before & after & Heq & Hall & Hx).
        destruct before as [|b before]; simpl in Heq.
        -- injection Heq as -> _. congruence.
        -- injection Heq as <- ->. apply Forall_cons in Hall as [_ Hall].
           eauto.
Qed.

Lemma find_nothing {A} (f : A -> bool) (l : list A) :
  Forall (fun y => f y = false) l -> find f l = None.
Proof.
  induction 1 as [|a l Ha _ IH]; simpl; [reflexivity |]. by rewrite Ha.
Qed.

Lemma find_agree {A} (f g : A -> bool) (l : list A) :
  (forall x, f x = g x) -> find f l = find g l.
Proof.
  intros H. induction l as [|a l IH]; simpl; [reflexivity |].
  rewrite H, IH. reflexivity.
Qed.

(** ** Splitting and joining *)

Lemma includes_char_cons (c sep : ascii) (s : string) :
  Js.includes (String c s) (String sep EmptyString) = false ->
  c <> sep /\ Js.includes s (String sep EmptyString) = false.
Proof.
  simpl. intros H. apply orb_false_iff in H as [Hc Hs].
  split; [| exact Hs].
  intros ->. destruct (ascii_dec sep sep); [| congruence].
  destruct s; discriminate.
Qed.

Lemma split_piece (sep : ascii) (piece rest : string) :
  Js.includes piece (String sep EmptyString) = false ->
  Js.split sep (piece +:+ String sep rest) = piece :: Js.split sep rest.
Proof.
  induction piece as [|c piece IH]; simpl; intros H.
  - destruct (decide (sep = sep)); [reflexivity | congruence].
  - apply includes_char_cons in H as [Hc Hs].
    destruct (decide (c = sep)); [congruence |].
    rewrite (IH Hs). reflexivity.
Qed.

Lemma split_last (sep : ascii) (piece : string) :
  Js.includes piece (String sep EmptyString) = false ->
  Js.split sep piece = [piece].
Proof.
  induction piece as [|c piece IH]; simpl; intros H; [reflexivity |].
  apply includes_char_cons in H as [Hc Hs].
  destruct (decide (c = sep)); [congruence |].
  rewrite (IH Hs). reflexivity.
Qed.

(** Splitting undoes joining when no field holds the separator. *)
Lemma split_join (sep : ascii) (fields : list string) :
  fields <> [] ->
  Forall (fun field => Js.includes field (String sep EmptyString) = false)
         fields ->
  Js.split sep (Js.join (String sep EmptyString) fields) = fields.
Proof.
  intros Hne Hall. induction Hall as [|field rest Hfield Hrest IH];
    [congruence |].
  destruct rest as [|next rest].
  - simpl. apply split_last, Hfield.
  - change (Js.join (String sep EmptyString) (field :: next :: rest))
      with (field +:+ String sep (Js.join (String sep EmptyString) (next :: rest))).
    rewrite split_piece by exact Hfield.
    rewrite IH by discriminate. reflexivity.
Qed.

(** Joining undoes splitting, whatever the string. *)
Lemma join_split (sep : ascii) (s : string) :
  Js.join (String sep EmptyString) (Js.split sep s) = s.
Proof.
  induction s as [|c s IH]; [reflexivity |].
  simpl. destruct (decide (c = sep)) as [->|Hc].
  - destruct (Js.split sep s) as [|piece pieces] eqn:Hsplit.
    + destruct s; simpl in Hsplit; [discriminate |].
      destruct (decide (_ = _)); [discriminate |].
      destruct (Js.split sep s); discriminate.
    + change (Js.join (String sep EmptyString) (EmptyString :: piece :: pieces))
        with (String sep (Js.join (String sep EmptyString) (piece :: pieces))).
      by rewrite IH.
  - destruct (Js.split sep s) as [|piece pieces] eqn:Hsplit.
    + destruct s; simpl in Hsplit; [discriminate |].
      destruct (decide (_ = _)); [discriminate |].
      destruct (Js.split sep s); discriminate.
    + rewrite <- IH. destruct pieces; reflexivity.
Qed.

(** ** The environment as a map *)

Ltac lookup_env :=
  repeat (rewrite lookup_insert_ne by (intros ?; discriminate));
  first [rewrite lookup_insert_eq | rewrite lookup_empty];
  reflexivity.

(** ** The tables *)

Lemma slices_truthy (target : AppleTargetName) (slice : string) :
  In slice (APPLE_XCFRAMEWORK_SLICES_PER_TARGET target) ->
  Js.truthy slice = true.
Proof.
  destruct target; simpl; intros H;
    repeat (destruct H as [<- | H]; [reflexivity |]); destruct H.
Qed.

Lemma universal_slice_first (target : AppleTargetName) :
  (1 < length (APPLE_XCFRAMEWORK_SLICES_PER_TARGET target))%nat ->
  exists universal rest,
    APPLE_XCFRAMEWORK_SLICES_PER_TARGET target = universal :: rest /\
    universal_slice universal = true /\
    Forall (fun slice => universal_slice slice = false) rest.
Proof.
  destruct target; simpl; intros Hlen; try lia;
    eexists _, _; (split; [reflexivity |]); split;
    try reflexivity; repeat constructor.
Qed.

Section CargoProperties.

Context (path_join : list string -> string).
Context (applePrebuildPath androidPrebuildPath : string).
Context (isThirdTierTarget : TargetName -> bool).
Context (spawn : Invocation -> Host -> Result Host).

Local Abbreviation joinPathAndAssertExistence :=
  (joinPathAndAssertExistence path_join).
Local Abbreviation getLLVMToolchainBinPath :=
  (getLLVMToolchainBinPath path_join).
Local Abbreviation getWeakNodeApiFrameworkPath :=
  (getWeakNodeApiFrameworkPath path_join applePrebuildPath).
Local Abbreviation getWeakNodeApiAndroidLibraryPath :=
  (getWeakNodeApiAndroidLibraryPath path_join androidPrebuildPath).
Local Abbreviation getTargetEnvironmentVariables :=
  (getTargetEnvironmentVariables path_join applePrebuildPath
     androidPrebuildPath).
Local Abbreviation slice_path := (slice_path path_join applePrebuildPath).
Local Abbreviation tool := (tool path_join).
Local Abbreviation android_environment := (android_environment path_join).
Local Abbreviation build_args := (build_args isThirdTierTarget).
Local Abbreviation cargo_invocation := (cargo_invocation isThirdTierTarget).
Local Abbreviation targetOutputPath := (targetOutputPath path_join).
Local Abbreviation build :=
  (build path_join applePrebuildPath androidPrebuildPath isThirdTierTarget
     spawn).

Lemma joinPathAndAssertExistence_ok h segments p :
  joinPathAndAssertExistence h segments = inr p <->
  p = path_join segments /\ existsSync h (path_join segments) = true.
Proof.
  unfold Cargo.joinPathAndAssertExistence.
  destruct (existsSync h (path_join segments)); simpl; split.
  - intros [= <-]. auto.
  - intros [-> _]. reflexivity.
  - discriminate.
  - intros [_ ?]. discriminate.
Qed.

(** C2. For every Apple target, [getWeakNodeApiFrameworkPath] returns the
    directory of the first slice of the target's candidate list that exists
    on disk; a list of more than one candidate starts with its universal
    slice and has no other, so that a universal slice that exists is the
    one returned; and when no candidate exists the call fails, with the
    assertion error that names the target. *)
Theorem framework_path_is_first_existing_slice
    (h : Host) (target : AppleTargetName) :
  let slices := APPLE_XCFRAMEWORK_SLICES_PER_TARGET target in
  ((1 < length slices)%nat ->
   exists universal rest,
     slices = universal :: rest /\
     universal_slice universal = true /\
     Forall (fun slice => universal_slice slice = false) rest) /\
  (forall p,
     getWeakNodeApiFrameworkPath h target = inr p <->
     exists before slice after,
       slices = before ++ slice :: after /\
       Forall (fun s => existsSync h (slice_path s) = false) before /\
       existsSync h (slice_path slice) = true /\
       p = slice_path slice) /\
  (forall universal,
     head slices = Some universal ->
     universal_slice universal = true ->
     existsSync h (slice_path universal) = true ->
     getWeakNodeApiFrameworkPath h target = inr (slice_path universal)) /\
  (Forall (fun s => existsSync h (slice_path s) = false) slices ->
   getWeakNodeApiFrameworkPath h target =
     inl (AssertionError
            ("No matching slice found in weak-node-api.xcframework for target "
               +:+ apple_triple target))).
Proof.
  intros slices.
  assert (Hfirst : forall p,
     getWeakNodeApiFrameworkPath h target = inr p <->
     exists before slice after,
       slices = before ++ slice :: after /\
       Forall (fun s => existsSync h (slice_path s) = false) before /\
       existsSync h (slice_path slice) = true /\
       p = slice_path slice).
  { intros p. unfold Cargo.getWeakNodeApiFrameworkPath. fold slices.
    destruct (find _ slices) as [slice|] eqn:Hfind.
    - pose proof Hfind as Hin. apply find_some in Hin as [Hin Hex].
      rewrite (slices_truthy target slice Hin). simpl.
      rewrite joinPathAndAssertExistence_ok.
      apply find_first in Hfind as (before & after & Heq & Hall & _).
      split.
      + intros [-> _]. exists before, slice, after. auto.
      + intros (before' & slice' & after' & Heq' & Hall' & Hex' & ->).
        assert (Hsame : find (fun s => existsSync h (slice_path s)) slices
                        = Some slice').
        { apply find_first. eauto 6. }
        assert (Hsame' : find (fun s => existsSync h (slice_path s)) slices
                         = Some slice).
        { apply find_first. eauto 6. }
        rewrite Hsame in Hsame'. injection Hsame' as ->. auto.
    - split; [discriminate |].
      intros (before & slice & after & Heq & Hall & Hex & _).
      assert (Hsome : find (fun s => existsSync h (slice_path s)) slices
                      = Some slice) by (apply find_first; eauto 6).
      unfold slice_path in Hsome. congruence. }
  split; [apply universal_slice_first |].
  split; [exact Hfirst |].
  split.
  - intros universal Hhead _ Hex. apply Hfirst.
    destruct slices as [|s rest]; [discriminate |].
    injection Hhead as ->. exists [], universal, rest. auto.
  - intros Hnone. unfold Cargo.getWeakNodeApiFrameworkPath. fold slices.
    pose proof (find_nothing _ _ Hnone) as Hfind. unfold slice_path in Hfind.
    rewrite Hfind. reflexivity.
Qed.

(** What a successful run of the Android branch went through. *)
Lemma android_environment_ok h configuration target ndkVersion level env :
  getTargetEnvironmentVariables h
    (AndroidBuild configuration target ndkVersion level) = inr env ->
  exists home bin lib,
    process_env h !! "ANDROID_HOME" = Some home /\
    getLLVMToolchainBinPath h (path_join [home; "ndk"; ndkVersion]) = inr bin /\
    getWeakNodeApiAndroidLibraryPath h target = inr lib /\
    env = android_environment h target ndkVersion level home bin lib.
Proof.
  unfold Cargo.getTargetEnvironmentVariables. intros H.
  result_steps.
  destruct (process_env h !! "ANDROID_HOME") as [home|] eqn:Hhome;
    [| discriminate].
  repeat match goal with
    | Hj : joinPathAndAssertExistence _ _ = inr _ |- _ =>
        apply joinPathAndAssertExistence_ok in Hj as [-> _]
    end.
  exists home. eexists _, _. repeat split; eauto.
Qed.

(** C4. The argument list of the cargo invocation is [build], [--target]
    and the triple, then [--release] exactly for the release
    configuration; for a third-tier target [+nightly] comes before all of
    these and [-Z], [build-std=std,panic_abort] after all of them.  Whenever
    the target environment resolves, [build] spawns cargo once, with exactly
    this list and with the target environment spread over the ambient one,
    and a failure of that process is the failure of [build]; when the
    environment does not resolve nothing is spawned.  So every invocation
    that [build] makes is of cargo with this list, and it makes at most
    one. *)
Theorem build_argument_order (h : Host) (options : BuildOptions) :
  let target := options_target options in
  let args :=
    (if isThirdTierTarget target then ["+nightly"] else [])
      ++ ["build"; "--target"; triple target]
      ++ (if decide (options_configuration options = release)
          then ["--release"] else [])
      ++ (if isThirdTierTarget target
          then ["-Z"; "build-std=std,panic_abort"] else []) in
  build_args options = args
  /\ (forall env,
        getTargetEnvironmentVariables h options = inr env ->
        let cargo :=
          {| inv_command := "cargo";
             inv_args := args;
             inv_env := env ∪ process_env h |} in
        fst (build h options) = [cargo] /\
        (forall e, spawn cargo h = inl e -> snd (build h options) = inl e))
  /\ (forall e,
        getTargetEnvironmentVariables h options = inl e ->
        build h options = ([], inl e))
  /\ Forall (fun cargo =>
               inv_command cargo = "cargo" /\
               inv_args cargo = build_args options)
            (fst (build h options))
  /\ (length (fst (build h options)) <= 1)%nat.
Proof.
  intros target args.
  assert (Hargs : build_args options = args).
  { unfold Cargo.build_args, args. fold target.
    destruct (options_configuration options), (isThirdTierTarget target);
      reflexivity. }
  split; [exact Hargs |]. split; [| split; [| split]].
  - intros env Henv cargo. unfold Cargo.build. rewrite Henv.
    unfold Cargo.cargo_invocation. rewrite Hargs. fold cargo. cbn [fst snd].
    split; [reflexivity |].
    intros e Hspawn. rewrite Hspawn. reflexivity.
  - intros e Henv. unfold Cargo.build. rewrite Henv. reflexivity.
  - unfold Cargo.build.
    destruct (getTargetEnvironmentVariables h options); simpl;
      repeat constructor.
  - unfold Cargo.build.
    destruct (getTargetEnvironmentVariables h options); simpl; lia.
Qed.

(** C1. For every Android target, NDK version and API level, the mapping
    that [getTargetEnvironmentVariables] returns holds the linker of each of
    the four Android architectures, whichever target was asked for, the
    compiler, C++ compiler, archiver and ranlib of the requested target, and
    a [PATH] made of the toolchain's bin directory, a colon and the ambient
    [PATH]. *)
Theorem android_environment_variables
    h configuration target ndkVersion androidApiLevel env :
  getTargetEnvironmentVariables h
    (AndroidBuild configuration target ndkVersion androidApiLevel) = inr env ->
  exists home bin,
    process_env h !! "ANDROID_HOME" = Some home /\
    getLLVMToolchainBinPath h (path_join [home; "ndk"; ndkVersion]) = inr bin /\
    let level := Js.number androidApiLevel in
    let arch := getTargetAndroidArch (android_triple target) in
    let platform := getTargetAndroidPlatform (android_triple target) in
    env !! "CARGO_TARGET_AARCH64_LINUX_ANDROID_LINKER" =
      Some (tool bin ("aarch64-linux-android" +:+ level +:+ "-clang"
                        +:+ cmdMaybe h)) /\
    env !! "CARGO_TARGET_ARMV7_LINUX_ANDROIDEABI_LINKER" =
      Some (tool bin ("armv7a-linux-androideabi" +:+ level +:+ "-clang"
                        +:+ cmdMaybe h)) /\
    env !! "CARGO_TARGET_X86_64_LINUX_ANDROID_LINKER" =
      Some (tool bin ("x86_64-linux-android" +:+ level +:+ "-clang"
                        +:+ cmdMaybe h)) /\
    env !! "CARGO_TARGET_I686_LINUX_ANDROID_LINKER" =
      Some (tool bin ("i686-linux-android" +:+ level +:+ "-clang"
                        +:+ cmdMaybe h)) /\
    env !! "TARGET_CC" =
      Some (tool bin (arch +:+ "-linux-" +:+ platform +:+ "-clang"
                        +:+ cmdMaybe h)) /\
    env !! "TARGET_CXX" =
      Some (tool bin (arch +:+ "-linux-" +:+ platform +:+ "-clang++"
                        +:+ cmdMaybe h)) /\
    env !! "TARGET_AR" = Some (tool bin ("llvm-ar" +:+ exeMaybe h)) /\
    env !! "TARGET_RANLIB" = Some (tool bin ("llvm-ranlib" +:+ exeMaybe h)) /\
    env !! "PATH" =
      Some (bin +:+ ":" +:+ Js.template (process_env h !! "PATH")).
Proof.
  intros H.
  apply android_environment_ok in H
    as (home & bin & lib & Hhome & Hbin & _ & ->).
  exists home, bin. split; [exact Hhome |]. split; [exact Hbin |].
  unfold Cargo.android_environment. cbv zeta.
  repeat split; lookup_env.
Qed.

(** The invocation that [build] makes once the environment is resolved. *)
Lemma build_invocation h options env :
  getTargetEnvironmentVariables h options = inr env ->
  fst (build h options) = [cargo_invocation h options env].
Proof. intros H. unfold Cargo.build. rewrite H. reflexivity. Qed.


(** What the target environment sets wins over the ambient environment. *)
Lemma cargo_env_set h options (env : gmap string string) name value :
  env !! name = Some value ->
  inv_env (cargo_invocation h options env) !! name = Some value.
Proof. intros H. simpl. apply lookup_union_Some_l, H. Qed.

(** What the target environment leaves unset passes through. *)
Lemma cargo_env_unset h options (env : gmap string string) name :
  env !! name = None ->
  inv_env (cargo_invocation h options env) !! name = process_env h !! name.
Proof. intros H. simpl. apply lookup_union_r, H. Qed.


(** C10. For every Apple target the mapping that
    [getTargetEnvironmentVariables] returns has the one key
    [CARGO_ENCODED_RUSTFLAGS], so that the environment of the cargo
    invocation agrees with the ambient environment on every other
    variable. *)
Theorem apple_environment_only_rustflags
    h configuration target androidApiLevel env :
  let options := AppleBuild configuration target androidApiLevel in
  getTargetEnvironmentVariables h options = inr env ->
  dom env = {["CARGO_ENCODED_RUSTFLAGS"]} /\
  (forall name, name <> "CARGO_ENCODED_RUSTFLAGS" -> env !! name = None) /\
  fst (build h options) = [cargo_invocation h options env] /\
  (forall name,
     name <> "CARGO_ENCODED_RUSTFLAGS" ->
     inv_env (cargo_invocation h options env) !! name = process_env h !! name).
Proof.
  intros options H.
  pose proof (build_invocation h options env H) as Hbuild.
  unfold options, Cargo.getTargetEnvironmentVariables in H. result_steps.
  assert (Hother : forall name,
            name <> "CARGO_ENCODED_RUSTFLAGS" -> env !! name = None).
  { intros name Hname. rewrite <- H.
    rewrite lookup_insert_ne by congruence. apply lookup_empty. }
  repeat split; auto.
  - rewrite <- H. rewrite dom_insert_L, dom_empty_L. set_solver.
  - intros name Hname. apply cargo_env_unset, Hother, Hname.
Qed.



Lemma joinPathAndAssertExistence_agree h1 h2 segments :
  (forall p, existsSync h1 p = existsSync h2 p) ->
  joinPathAndAssertExistence h1 segments
  = joinPathAndAssertExistence h2 segments.
Proof.
  intros H. unfold Cargo.joinPathAndAssertExistence. by rewrite H.
Qed.

(** C7, as amended. The mapping is determined by the options together with
    what the resolver reads of its host: on two hosts with the same
    [ANDROID_HOME] and [PATH], both or neither of which is a Windows host,
    and the same file system, equal options give equal results. *)
Theorem environment_determined_by_options_and_host h1 h2 options :
  hosts_agree h1 h2 ->
  getTargetEnvironmentVariables h1 options
  = getTargetEnvironmentVariables h2 options.
Proof.
  intros (Hhome & Hpath & Hwin & Hex & Hdir).
  assert (Hcmd : forall (a b : string),
            (if decide (process_platform h1 = "win32") then a else b)
            = (if decide (process_platform h2 = "win32") then a else b)).
  { intros a b. destruct (decide _), (decide _); tauto. }
  unfold Cargo.getTargetEnvironmentVariables.
  destruct options as [configuration target ndkVersion level
                      |configuration target level].
  - rewrite Hhome, Hpath, !Hcmd.
    destruct (process_env h2 !! "ANDROID_HOME") as [home|].
    all: simpl.
    all: unfold Cargo.getWeakNodeApiAndroidLibraryPath,
      Cargo.getLLVMToolchainBinPath.
    all: repeat first
      [ reflexivity
      | apply bind_ext; [| intros ?]
      | rewrite Hex
      | rewrite Hdir
      | apply joinPathAndAssertExistence_agree, Hex ].
  - unfold Cargo.getWeakNodeApiFrameworkPath.
    rewrite (find_agree _
               (fun slice => existsSync h2 (path_join [applePrebuildPath; slice])))
      by (intros slice; apply Hex).
    repeat first
      [ reflexivity
      | apply bind_ext; [| intros ?]
      | rewrite Hex
      | destruct (find _ _)
      | apply joinPathAndAssertExistence_agree, Hex ].
Qed.

End CargoProperties.

(** C5. [getTargetAndroidArch] gives [armv7a] for the 32-bit ARM target,
    whose triple begins with [armv7], and the first dash-separated component
    of the triple for every other Android target; [getTargetAndroidPlatform]
    gives [androideabi24] for that one target and [android24] for the
    others. *)
Theorem android_arch_and_platform (target : AndroidTargetName) :
  Js.startsWith (android_triple armv7_linux_androideabi) "armv7" = true /\
  getTargetAndroidArch (android_triple target) =
    (if decide (target = armv7_linux_androideabi)
     then "armv7a"
     else hd EmptyString (Js.split "-" (android_triple target))) /\
  getTargetAndroidPlatform (android_triple target) =
    (if decide (target = armv7_linux_androideabi)
     then "androideabi24"
     else "android24").
Proof. destruct target; repeat split. Qed.

(** ** Actions *)

Lemma moves_on_refl (p : Process) : moves_on p p.
Proof. split; [exists []; by rewrite app_nil_r | auto]. Qed.

Lemma moves_on_trans (p q r : Process) :
  moves_on p q -> moves_on q r -> moves_on p r.
Proof.
  intros [[m1 H1] C1] [[m2 H2] C2]. split; [| auto].
  exists (m1 ++ m2). by rewrite H2, H1, app_assoc.
Qed.

Lemma steady_ret {A} (x : A) : steady (act_ret x).
Proof. intros p. apply moves_on_refl. Qed.

Lemma steady_lift {A} (r : Result A) : steady (lift r).
Proof. intros p. apply moves_on_refl. Qed.

Lemma steady_emit (e : Event) : steady (emit e).
Proof. intros p. split; simpl; eauto. Qed.

Lemma steady_set_exitCode_1 : steady (set_exitCode 1).
Proof. intros p. split; simpl; [exists []; by rewrite app_nil_r | auto]. Qed.

Lemma steady_bind {A B} (m : Act A) (k : A -> Act B) :
  steady m -> (forall x, steady (k x)) -> steady (act_bind m k).
Proof.
  intros Hm Hk p. unfold act_bind. specialize (Hm p).
  destruct (m p) as [p1 [e|x]]; simpl in *; [exact Hm |].
  eapply moves_on_trans; [exact Hm | apply Hk].
Qed.

Lemma steady_for_of {A} (xs : list A) (body : A -> Act unit) :
  (forall x, steady (body x)) -> steady (for_of xs body).
Proof.
  intros Hbody. induction xs as [|x xs IH]; simpl.
  - apply steady_ret.
  - apply steady_bind; auto.
Qed.

Lemma steady_oraPromise {A} (action : Act A) text successText failText :
  steady action -> steady (oraPromise action text successText failText).
Proof.
  intros Haction p. unfold oraPromise.
  pose proof (steady_bind (emit (ora_start text)) (fun _ => action)
                (steady_emit _) (fun _ => Haction) p) as Hstart.
  destruct (act_bind _ _ p) as [p1 [e|x]]; simpl in Hstart.
  - eapply moves_on_trans; [exact Hstart |].
    apply (steady_bind (emit _) (fun _ => lift (inl e))
             (steady_emit _) (fun _ => steady_lift _)).
  - eapply moves_on_trans; [exact Hstart |].
    apply (steady_bind (emit _) (fun _ => act_ret x)
             (steady_emit _) (fun _ => steady_ret _)).
Qed.

Lemma act_bind_ok {A B} (m : Act A) (k : A -> Act B) p p' (y : B) :
  act_bind m k p = (p', inr y) ->
  exists p1 x, m p = (p1, inr x) /\ k x p1 = (p', inr y).
Proof.
  unfold act_bind. destruct (m p) as [p1 [e|x]]; [discriminate | eauto].
Qed.

(** When a loop ends well, each of its rounds was run and ended well. *)
Lemma for_of_ok {A} (xs : list A) (body : A -> Act unit) p p' :
  (forall x, steady (body x)) ->
  for_of xs body p = (p', inr tt) ->
  forall x, In x xs ->
    exists p1 p2,
      moves_on p p1 /\ body x p1 = (p2, inr tt) /\ moves_on p2 p'.
Proof.
  intros Hbody. revert p. induction xs as [|a xs IH]; intros p Hrun x Hin.
  - destruct Hin.
  - simpl in Hrun. apply act_bind_ok in Hrun as (p1 & [] & Ha & Hrest).
    destruct Hin as [<- | Hin].
    + exists p, p1. split; [apply moves_on_refl |]. split; [exact Ha |].
      pose proof (steady_for_of xs body Hbody p1) as Hs.
      rewrite Hrest in Hs. exact Hs.
    + destruct (IH p1 Hrest x Hin) as (q1 & q2 & Hq1 & Hq & Hq2).
      exists q1, q2. split; [| auto].
      eapply moves_on_trans; [| exact Hq1].
      pose proof (Hbody a p) as Hs. rewrite Ha in Hs. exact Hs.
Qed.

Lemma existsb_filter {A} (f : A -> bool) (l : list A) :
  existsb f (List.filter f l) = existsb f l.
Proof.
  induction l as [|a l IH]; simpl; [reflexivity |].
  destruct (f a) eqn:Ha; simpl; [by rewrite Ha | exact IH].
Qed.

Section LinkProperties.

Context (path_join : list string -> string).
Context (path_resolve path_basename : string -> string).
Context (fs_existsSync : string -> bool).
Context (chalk_dim chalk_bold chalk_greenBright chalk_redBright
          : string -> string).
Context (prettyPath : string -> string).
Context (PLATFORMS : list PlatformName).
Context (getAutolinkPath : PlatformName -> string).
Context (linkModules : LinkModulesOptions -> Result (list LinkedModuleOutput)).
Context (pruneLinkedModules :
          PlatformName -> list LinkedModuleOutput -> Result unit).
Context (linkXcframework linkAndroidDir : ModuleLinker).
Context (restoreFrameworkLinks : string -> Result unit).
Context (applePrebuildPath : string).

Local Abbreviation report_linked :=
  (report_linked path_basename chalk_greenBright prettyPath).
Local Abbreviation report_failure :=
  (report_failure chalk_redBright prettyPath).
Local Abbreviation linked_events :=
  (linked_events path_basename chalk_greenBright prettyPath).
Local Abbreviation failure_events :=
  (failure_events chalk_redBright prettyPath).
Local Abbreviation platform_reports :=
  (platform_reports path_basename chalk_greenBright chalk_redBright
     prettyPath getAutolinkPath).
Local Abbreviation linkModules_options :=
  (linkModules_options path_resolve linkXcframework linkAndroidDir).
Local Abbreviation link_one_platform :=
  (link_one_platform path_resolve path_basename chalk_greenBright
     chalk_redBright prettyPath getAutolinkPath linkModules
     pruneLinkedModules linkXcframework linkAndroidDir).
Local Abbreviation restore_all :=
  (restore_all path_join fs_existsSync restoreFrameworkLinks
     applePrebuildPath).
Local Abbreviation link_action :=
  (link_action path_join path_resolve path_basename fs_existsSync chalk_dim
     chalk_bold chalk_greenBright chalk_redBright prettyPath PLATFORMS
     getAutolinkPath
     linkModules pruneLinkedModules linkXcframework linkAndroidDir
     restoreFrameworkLinks applePrebuildPath).
Local Abbreviation link_command :=
  (link_command path_join path_resolve path_basename fs_existsSync chalk_dim
     chalk_bold chalk_greenBright chalk_redBright prettyPath PLATFORMS
     getAutolinkPath
     linkModules pruneLinkedModules linkXcframework linkAndroidDir
     restoreFrameworkLinks applePrebuildPath).

Lemma report_linked_run result p :
  report_linked result p =
    ({| exitCode := exitCode p;
        events := events p ++ linked_events result |}, inr tt).
Proof.
  destruct p as [code evs], result as [originalPath outputPath []|]; simpl;
    unfold emit, act_ret; simpl; rewrite ?app_nil_r; reflexivity.
Qed.

Lemma report_failure_run result p :
  report_failure result p =
    ({| exitCode := if has_failure result then Some 1%Z else exitCode p;
        events := events p ++ failure_events result |}, inr tt).
Proof.
  destruct p as [code evs], result as [|originalPath failure]; simpl;
    unfold act_bind, emit, set_exitCode, act_ret; simpl;
    rewrite ?app_nil_r, <- ?app_assoc; reflexivity.
Qed.

Lemma for_of_report_linked results p :
  for_of results report_linked p =
    ({| exitCode := exitCode p;
        events := events p ++ flat_map linked_events results |}, inr tt).
Proof.
  revert p. induction results as [|result results IH]; intros p; simpl.
  - destruct p. unfold act_ret. simpl. by rewrite app_nil_r.
  - unfold act_bind. rewrite report_linked_run, IH. simpl.
    by rewrite app_assoc.
Qed.

Lemma for_of_report_failure results p :
  for_of results report_failure p =
    ({| exitCode :=
          if existsb has_failure results then Some 1%Z else exitCode p;
        events := events p ++ flat_map failure_events results |}, inr tt).
Proof.
  revert p. induction results as [|result results IH]; intros p; simpl.
  - destruct p. unfold act_ret. simpl. by rewrite app_nil_r.
  - unfold act_bind. rewrite report_failure_run, IH. simpl.
    rewrite app_assoc.
    destruct (has_failure result), (existsb has_failure results);
      reflexivity.
Qed.

(** One round of the loop over the platforms, once the link results of the
    platform are known. *)
Lemma link_one_platform_run pathArg options platform modules p :
  linkModules (linkModules_options pathArg options platform) = inr modules ->
  link_one_platform pathArg options platform p =
    if prune options
    then ({| exitCode :=
               if existsb has_failure modules then Some 1%Z else exitCode p;
             events :=
               events p ++ platform_reports platform modules
                 ++ [call_pruneLinkedModules platform modules] |},
          pruneLinkedModules platform modules)
    else ({| exitCode :=
               if existsb has_failure modules then Some 1%Z else exitCode p;
             events := events p ++ platform_reports platform modules |},
          inr tt).
Proof.
  intros Hlink. unfold Cli.link_one_platform, Cli.platform_reports.
  unfold act_bind at 1. unfold oraPromise, act_bind at 1, emit at 1, lift at 1.
  rewrite Hlink. cbn [fst snd]. unfold act_bind at 1, emit at 1, act_ret at 1.
  cbn [exitCode events].
  unfold act_bind at 1.
  destruct (decide (length modules = 0%nat)) as [Hnone|Hsome].
  - unfold emit at 1. cbn [exitCode events].
    unfold act_bind at 1. rewrite for_of_report_linked.
    unfold act_bind at 1. rewrite for_of_report_failure.
    cbn [exitCode events]. rewrite existsb_filter.
    destruct (prune options).
    + unfold act_bind, emit, lift. cbn [exitCode events].
      rewrite <- !app_assoc. reflexivity.
    + unfold act_ret. rewrite <- !app_assoc. reflexivity.
  - unfold act_ret at 1.
    unfold act_bind at 1. rewrite for_of_report_linked.
    unfold act_bind at 1. rewrite for_of_report_failure.
    cbn [exitCode events]. rewrite existsb_filter.
    destruct (prune options).
    + unfold act_bind, emit, lift. cbn [exitCode events].
      rewrite <- !app_assoc. reflexivity.
    + unfold act_ret. rewrite <- !app_assoc. reflexivity.
Qed.

Lemma link_one_platform_ok pathArg options platform p p' :
  link_one_platform pathArg options platform p = (p', inr tt) ->
  exists modules,
    linkModules (linkModules_options pathArg options platform) = inr modules.
Proof.
  destruct (linkModules (linkModules_options pathArg options platform))
    as [e|modules] eqn:Hlink; [| eauto].
  unfold Cli.link_one_platform.
  unfold act_bind at 1. unfold oraPromise, act_bind at 1, emit at 1, lift at 1.
  rewrite Hlink. cbn [fst snd]. unfold act_bind, emit, lift. discriminate.
Qed.

Lemma steady_link_one_platform pathArg options platform :
  steady (link_one_platform pathArg options platform).
Proof.
  intros p.
  destruct (linkModules (linkModules_options pathArg options platform))
    as [e|modules] eqn:Hlink.
  - unfold Cli.link_one_platform.
    unfold act_bind at 1. unfold oraPromise, act_bind at 1, emit at 1, lift at 1.
    rewrite Hlink. cbn [fst snd]. unfold act_bind, emit, lift. simpl.
    split; simpl; [| auto]. rewrite <- app_assoc. eauto.
  - rewrite (link_one_platform_run _ _ _ _ _ Hlink).
    destruct (prune options); split; simpl; eauto;
      intros ->; by destruct (existsb _ _).
Qed.

Lemma steady_restore_all : steady restore_all.
Proof.
  unfold Cli.restore_all. apply steady_bind.
  - apply steady_for_of. intros x. apply steady_emit.
  - intros _. apply steady_lift.
Qed.

Lemma selected_platforms_flags line platform :
  In platform (selected_platforms (link_options line)) <->
  match platform with
  | platform_android => given_android line = true
  | platform_apple => given_apple line = true
  end.
Proof.
  unfold selected_platforms, link_options, boolean_option. simpl.
  destruct (given_android line), (given_apple line), platform; simpl;
    intuition congruence.
Qed.

(** A run of the action that ends well went through the round of every
    selected platform. *)
Lemma link_action_rounds pathArg options p p' platform :
  link_action pathArg options p = (p', inr tt) ->
  In platform (selected_platforms options) ->
  exists p1 p2,
    moves_on p p1 /\
    link_one_platform pathArg options platform p1 = (p2, inr tt) /\
    moves_on p2 p'.
Proof.
  intros Hrun Hin. unfold Cli.link_action in Hrun.
  apply act_bind_ok in Hrun as (p0 & [] & Hlog & Hrun).
  destruct (decide (length (selected_platforms options) = 0%nat)) as [Hnone|_].
  { destruct (selected_platforms options); [destruct Hin | discriminate]. }
  apply act_bind_ok in Hrun as (pmid & [] & Hloop & Hrest).
  destruct (for_of_ok _ _ _ _ (steady_link_one_platform pathArg options)
              Hloop platform Hin) as (p1 & p2 & H1 & Hround & H2).
  exists p1, p2. split; [| split; [exact Hround |]].
  - eapply moves_on_trans; [| exact H1].
    pose proof (steady_emit (console_log ["Auto-linking Node-API modules from";
                                          chalk_dim pathArg]) p) as Hs.
    rewrite Hlog in Hs. exact Hs.
  - eapply moves_on_trans; [exact H2 |].
    destruct (apple options).
    + pose proof (steady_oraPromise restore_all
                    "Restoring weak-node-api symlinks"
                    "Restored weak-node-api symlinks"
                    (fun error => "Failed to restore weak-node-api symlinks: "
                                    +:+ error_message error)
                    steady_restore_all pmid) as Hs.
      rewrite Hrest in Hs. exact Hs.
    + injection Hrest as <-. apply moves_on_refl.
Qed.

(** C9. The [--prune] option is true unless overridden, and nothing on the
    command line makes it false: in every run of [link], for each selected
    platform, once the link results of the platform are known the round of
    that platform writes its reports and then calls [pruneLinkedModules]
    with the platform and these results; and a run that ends well has made
    this call for each selected platform, after the reports of the
    platform. *)
Theorem prune_runs_for_each_selected_platform
    (cwd : string) (line : LinkCommandLine) :
  let options := link_options line in
  let pathArg := default cwd (given_path line) in
  prune options = true /\
  (forall platform,
     In platform (selected_platforms options) <->
     match platform with
     | platform_android => given_android line = true
     | platform_apple => given_apple line = true
     end) /\
  (forall platform modules p,
     In platform (selected_platforms options) ->
     linkModules (linkModules_options pathArg options platform) = inr modules ->
     link_one_platform pathArg options platform p =
       ({| exitCode :=
             if existsb has_failure modules then Some 1%Z else exitCode p;
           events :=
             events p ++ platform_reports platform modules
               ++ [call_pruneLinkedModules platform modules] |},
        pruneLinkedModules platform modules)) /\
  (forall p p' platform,
     link_command cwd line p = (p', inr tt) ->
     In platform (selected_platforms options) ->
     exists modules before after,
       linkModules (linkModules_options pathArg options platform)
         = inr modules /\
       events p' =
         before ++ platform_reports platform modules
           ++ call_pruneLinkedModules platform modules :: after).
Proof.
  intros options pathArg.
  assert (Hprune : prune options = true).
  { unfold options, link_options, boolean_option. simpl.
    by destruct (given_prune line). }
  split; [exact Hprune |].
  split; [intros platform; apply selected_platforms_flags |]. split.
  - intros platform modules p _ Hlink.
    rewrite (link_one_platform_run _ _ _ _ _ Hlink), Hprune. reflexivity.
  - intros p p' platform Hrun Hin.
    destruct (link_action_rounds _ _ _ _ _ Hrun Hin)
      as (p1 & p2 & _ & Hround & [[more Hmore] _]).
    destruct (link_one_platform_ok _ _ _ _ _ Hround) as [modules Hlink].
    rewrite (link_one_platform_run _ _ _ _ _ Hlink) in Hround.
    fold options in Hround. rewrite Hprune in Hround.
    apply (f_equal fst) in Hround. cbn [fst] in Hround. subst p2.
    cbn [events] in Hmore.
    exists modules, (events p1), more. split; [exact Hlink |].
    rewrite Hmore, <- !app_assoc. reflexivity.
Qed.

End LinkProperties.

(** ** Failures of single modules *)

Lemma incl_flat_map_filter {A B} (f : A -> list B) (keep : A -> bool)
    (l : list A) (x : A) :
  In x l -> (keep x = false -> f x = []) ->
  incl (f x) (flat_map f (List.filter keep l)).
Proof.
  intros Hin Hskip. destruct (keep x) eqn:Hkeep.
  - intros y Hy. apply in_flat_map. exists x. split; [| exact Hy].
    apply filter_In. auto.
  - rewrite (Hskip eq_refl). intros y [].
Qed.

Section LinkFailures.

Context (path_join : list string -> string).
Context (path_resolve path_basename : string -> string).
Context (fs_existsSync : string -> bool).
Context (chalk_dim chalk_bold chalk_greenBright chalk_redBright
          : string -> string).
Context (prettyPath : string -> string).
Context (PLATFORMS : list PlatformName).
Context (getAutolinkPath : PlatformName -> string).
Context (discover : PlatformName -> string -> Result (list string)).
Context (expected_output : PlatformName -> NamingStrategy -> string -> string).
Context (up_to_date : string -> string -> bool).
Context (pruneLinkedModules :
          PlatformName -> list LinkedModuleOutput -> Result unit).
Context (linkXcframework linkAndroidDir : ModuleLinker).
Context (restoreFrameworkLinks : string -> Result unit).
Context (applePrebuildPath : string).

Local Abbreviation linkModules :=
  (linkModules_spec discover expected_output up_to_date).
Local Abbreviation linkModule := (linkModule expected_output up_to_date).
Local Abbreviation linked_events :=
  (linked_events path_basename chalk_greenBright prettyPath).
Local Abbreviation failure_events :=
  (failure_events chalk_redBright prettyPath).
Local Abbreviation platform_reports :=
  (platform_reports path_basename chalk_greenBright chalk_redBright
     prettyPath getAutolinkPath).
Local Abbreviation linkModules_options :=
  (linkModules_options path_resolve linkXcframework linkAndroidDir).
Local Abbreviation link_one_platform :=
  (link_one_platform path_resolve path_basename chalk_greenBright
     chalk_redBright prettyPath getAutolinkPath linkModules
     pruneLinkedModules linkXcframework linkAndroidDir).
Local Abbreviation link_command :=
  (link_command path_join path_resolve path_basename fs_existsSync chalk_dim
     chalk_bold chalk_greenBright chalk_redBright prettyPath PLATFORMS
     getAutolinkPath
     linkModules pruneLinkedModules linkXcframework linkAndroidDir
     restoreFrameworkLinks applePrebuildPath).

Lemma originalPath_linkModule options path :
  originalPath_of (linkModule options path) = path.
Proof.
  unfold LinkModules.linkModule.
  destruct (_ && _); [reflexivity |]. by destruct (link_linker options _).
Qed.

Lemma reports_of_result platform modules result :
  In result modules ->
  incl (linked_events result) (platform_reports platform modules) /\
  incl (failure_events result) (platform_reports platform modules).
Proof.
  intros Hin. unfold Cli.platform_reports. split.
  - intros e He. rewrite !in_app_iff. right. right. left.
    revert e He. apply incl_flat_map_filter; [exact Hin |].
    by destruct result.
  - intros e He. rewrite !in_app_iff. right. right. right.
    revert e He. apply incl_flat_map_filter; [exact Hin |].
    by destruct result.
Qed.

(** C8. Without a platform flag the command sets the exit code to 1 and
    does nothing else.  With one, linking gives one result per discovered
    module, in order, a module whose copy fails getting a failure record
    while the others get theirs; the round of the platform reports every
    result, linked or failed, each failure with its own lines, and sets the
    exit code to 1 when a module failed; and a run that ends well, one of
    whose modules failed, ends with exit code 1 and the report of that
    failure. *)
Theorem link_exit_code_and_failures (cwd : string) (line : LinkCommandLine) :
  let options := link_options line in
  let pathArg := default cwd (given_path line) in
  (given_android line = false -> given_apple line = false ->
   forall p,
     link_command cwd line p =
       ({| exitCode := Some 1%Z;
           events :=
             events p ++
               [console_log ["Auto-linking Node-API modules from";
                             chalk_dim pathArg];
                console_error
                  ("No platform specified, pass one or more of:"
                     :: map (fun platform =>
                               chalk_bold (Js.newline +:+ "  --"
                                             +:+ platform_name platform))
                            PLATFORMS)] |},
        inr tt)) /\
  (forall platform paths,
     discover platform (path_resolve pathArg) = inr paths ->
     exists modules,
       linkModules (linkModules_options pathArg options platform)
         = inr modules /\
       map originalPath_of modules = paths /\
       forall path failure,
         In path paths ->
         linkModule (linkModules_options pathArg options platform) path
           = Failed path failure ->
         In (Failed path failure) modules) /\
  (forall platform modules p result,
     linkModules (linkModules_options pathArg options platform)
       = inr modules ->
     In result modules ->
     let after := fst (link_one_platform pathArg options platform p) in
     incl (linked_events result) (events after) /\
     incl (failure_events result) (events after) /\
     (has_failure result = true -> exitCode after = Some 1%Z)) /\
  (forall p p' platform modules result,
     link_command cwd line p = (p', inr tt) ->
     In platform (selected_platforms options) ->
     linkModules (linkModules_options pathArg options platform)
       = inr modules ->
     In result modules ->
     has_failure result = true ->
     exitCode p' = Some 1%Z /\ incl (failure_events result) (events p')).
Proof.
  intros options pathArg.
  assert (Hround : forall platform modules p result,
     linkModules (linkModules_options pathArg options platform)
       = inr modules ->
     In result modules ->
     let after := fst (link_one_platform pathArg options platform p) in
     incl (linked_events result) (events after) /\
     incl (failure_events result) (events after) /\
     (has_failure result = true -> exitCode after = Some 1%Z)).
  { intros platform modules p result Hlink Hin after.
    destruct (reports_of_result platform modules result Hin)
      as [Hlinked Hfailed].
    assert (Hany : has_failure result = true ->
                   existsb has_failure modules = true).
    { intros Hf. apply existsb_exists. eauto. }
    unfold after.
    erewrite link_one_platform_run by exact Hlink.
    destruct (prune options); cbn [fst exitCode events].
    - repeat split.
      + intros e He. rewrite !in_app_iff. auto.
      + intros e He. rewrite !in_app_iff. auto.
      + intros Hf. by rewrite (Hany Hf).
    - repeat split.
      + intros e He. rewrite !in_app_iff. auto.
      + intros e He. rewrite !in_app_iff. auto.
      + intros Hf. by rewrite (Hany Hf). }
  split; [| split; [| split]].
  - intros Handroid Happle p.
    unfold Cli.link_command, Cli.link_action.
    fold pathArg.
    unfold selected_platforms, link_options, boolean_option.
    cbn [android apple]. rewrite Handroid, Happle.
    destruct p as [code evs]. unfold act_bind, emit, set_exitCode.
    simpl. rewrite <- app_assoc. reflexivity.
  - intros platform paths Hdiscover.
    exists (map (linkModule (linkModules_options pathArg options platform))
              paths).
    split; [| split].
    + unfold LinkModules.linkModules_spec. cbn [link_platform link_fromPath
        Cli.linkModules_options].
      rewrite Hdiscover. reflexivity.
    + rewrite map_map. rewrite <- (map_id paths) at 2.
      apply map_ext. intros path. apply originalPath_linkModule.
    + intros path failure Hin Hfailed. rewrite <- Hfailed.
      apply in_map, Hin.
  - exact Hround.
  - intros p p' platform modules result Hrun Hin Hlink Hresult Hfailure.
    eapply link_action_rounds in Hrun; [| exact Hin].
    destruct Hrun as (p1 & p2 & _ & Hrun & [[more Hmore] Hcode]).
    destruct (Hround platform modules p1 result Hlink Hresult)
      as (_ & Hevents & Hexit).
    fold options pathArg in Hrun. rewrite Hrun in Hevents, Hexit.
    cbn [fst] in Hevents, Hexit. split.
    + apply Hcode, Hexit, Hfailure.
    + intros e He. rewrite Hmore, in_app_iff. left. apply Hevents, He.
Qed.

End LinkFailures.

(** * Runs on the sample host *)

Local Abbreviation sample_environment :=
  (getTargetEnvironmentVariables Sample.path_join Sample.applePrebuildPath
     Sample.androidPrebuildPath).
Local Abbreviation sample_build :=
  (build Sample.path_join Sample.applePrebuildPath Sample.androidPrebuildPath
     Sample.isThirdTierTarget).
Local Abbreviation sample_cargo :=
  (cargo_invocation Sample.isThirdTierTarget).

(** On the sample host the Android branch ends well; the linker of an
    architecture that was not asked for and the search path are there. *)
Lemma android_environment_variables_witness :
  sample_environment Sample.host Sample.android_options
    = inr Sample.android_env /\
  Sample.android_env !! "CARGO_TARGET_I686_LINUX_ANDROID_LINKER"
    = Some (Sample.bin +:+ "/i686-linux-android24-clang") /\
  Sample.android_env !! "TARGET_CXX"
    = Some (Sample.bin +:+ "/armv7a-linux-androideabi24-clang++") /\
  Sample.android_env !! "PATH" = Some (Sample.bin +:+ ":/usr/bin:/bin").
Proof.
  assert (Hrun : sample_environment Sample.host Sample.android_options
                 = inr Sample.android_env) by reflexivity.
  split; [exact Hrun |].
  apply android_environment_variables in Hrun
    as (home & bin & Hhome & Hbin & _ & _ & _ & Hi686 & _ & Hcxx & _ & _
        & Hpath).
  vm_compute in Hhome. injection Hhome as <-.
  vm_compute in Hbin. injection Hbin as <-.
  rewrite Hi686, Hcxx, Hpath. vm_compute. auto.
Defined.

(** On the sample host both macOS slices exist and the universal one is
    taken; no iOS slice exists and the call fails. *)
Lemma framework_path_is_first_existing_slice_witness :
  getWeakNodeApiFrameworkPath Sample.path_join Sample.applePrebuildPath
    Sample.host aarch64_apple_darwin
    = inr (Sample.applePrebuildPath +:+ "/macos-arm64_x86_64") /\
  getWeakNodeApiFrameworkPath Sample.path_join Sample.applePrebuildPath
    Sample.host aarch64_apple_ios
    = inl (AssertionError
             "No matching slice found in weak-node-api.xcframework for target aarch64-apple-ios").
Proof.
  split.
  - destruct (framework_path_is_first_existing_slice Sample.path_join
                Sample.applePrebuildPath Sample.host aarch64_apple_darwin)
      as (_ & _ & Huniversal & _).
    apply (Huniversal "macos-arm64_x86_64"); reflexivity.
  - destruct (framework_path_is_first_existing_slice Sample.path_join
                Sample.applePrebuildPath Sample.host aarch64_apple_ios)
      as (_ & _ & _ & Hnone).
    apply Hnone. repeat constructor.
Defined.


(** The build of a third-tier target on the sample host spawns cargo with
    the nightly toolchain first and the build-std flags last; with a cargo
    that fails, that failure is the result. *)
Lemma build_argument_order_witness :
  sample_environment Sample.host Sample.visionos_options
    = inr SampleMore.visionos_env /\
  fst (sample_build Sample.spawn Sample.host Sample.visionos_options)
    = [{| inv_command := "cargo";
          inv_args := ["+nightly"; "build"; "--target";
                       "aarch64-apple-visionos-sim"; "--release";
                       "-Z"; "build-std=std,panic_abort"];
          inv_env := SampleMore.visionos_env ∪ process_env Sample.host |}] /\
  snd (sample_build SampleMore.spawn_failing Sample.host
         Sample.visionos_options)
    = inl (SpawnFailed "cargo exited with status 101"
             "error: could not compile").
Proof.
  assert (Hrun : sample_environment Sample.host Sample.visionos_options
                 = inr SampleMore.visionos_env) by reflexivity.
  split; [exact Hrun |]. split.
  - pose proof (build_argument_order Sample.path_join
                  Sample.applePrebuildPath Sample.androidPrebuildPath
                  Sample.isThirdTierTarget Sample.spawn Sample.host
                  Sample.visionos_options) as H.
    cbv zeta in H. destruct H as (_ & Hspawned & _).
    destruct (Hspawned SampleMore.visionos_env Hrun) as [Hone _].
    exact Hone.
  - pose proof (build_argument_order Sample.path_join
                  Sample.applePrebuildPath Sample.androidPrebuildPath
                  Sample.isThirdTierTarget SampleMore.spawn_failing
                  Sample.host Sample.visionos_options) as H.
    cbv zeta in H. destruct H as (_ & Hspawned & _).
    destruct (Hspawned SampleMore.visionos_env Hrun) as [_ Hfails].
    apply Hfails. reflexivity.
Defined.


(** On the sample host the search path and the SDK root reach cargo as
    they are when the target is an Apple one. *)
Lemma apple_environment_only_rustflags_witness :
  sample_environment Sample.host Sample.apple_options
    = inr Sample.apple_env /\
  Sample.apple_env !! "PATH" = None /\
  inv_env (sample_cargo Sample.host Sample.apple_options Sample.apple_env)
    !! "PATH" = Some "/usr/bin:/bin" /\
  inv_env (sample_cargo Sample.host Sample.apple_options Sample.apple_env)
    !! "ANDROID_HOME" = Some "/sdk".
Proof.
  assert (Hrun : sample_environment Sample.host Sample.apple_options
                 = inr Sample.apple_env) by reflexivity.
  split; [exact Hrun |].
  pose proof (apple_environment_only_rustflags Sample.path_join
                Sample.applePrebuildPath Sample.androidPrebuildPath
                Sample.isThirdTierTarget Sample.spawn Sample.host
                debug aarch64_apple_darwin None Sample.apple_env) as H.
  cbv zeta in H. destruct (H Hrun) as (_ & Hnone & _ & Hpass).
  split; [| split].
  - apply Hnone. discriminate.
  - rewrite Hpass by discriminate. vm_compute. reflexivity.
  - rewrite Hpass by discriminate. vm_compute. reflexivity.
Defined.

(** C7, against the claim as stated. Two hosts that differ only in their
    [PATH] give, for the same options, two different mappings. *)
Lemma environment_depends_on_ambient_path :
  sample_environment Sample.host Sample.android_options
  <> sample_environment Sample.host_other_path Sample.android_options.
Proof.
  intros H.
  apply (f_equal (fun result : Result (gmap string string) =>
                    match result with
                    | inr env => env !! "PATH"
                    | inl _ => None
                    end)) in H.
  vm_compute in H. discriminate H.
Qed.

(** Two hosts that differ in their working directory, in [HOME] and in
    their platform, neither being Windows, give the same mapping. *)
Lemma environment_determined_by_options_and_host_witness :
  hosts_agree Sample.host Sample.host_elsewhere /\
  sample_environment Sample.host Sample.android_options
  = sample_environment Sample.host_elsewhere Sample.android_options.
Proof.
  assert (Hagree : hosts_agree Sample.host Sample.host_elsewhere).
  { repeat split; try reflexivity; intros H; discriminate H. }
  split; [exact Hagree |].
  apply environment_determined_by_options_and_host, Hagree.
Defined.

Local Abbreviation sample_linkModules :=
  (linkModules_spec Sample.discover Sample.expected_output Sample.up_to_date).
Local Abbreviation sample_linkModules_options :=
  (linkModules_options Sample.plain Sample.linker Sample.linker).

(** [link --android] on the sample application: the copy of one module of
    three fails, the two others are reported, and the exit code is 1; and
    [link] without a platform. *)
Lemma link_exit_code_and_failures_witness :
  Sample.link Sample.android_line Sample.start
    = (Sample.android_finish, inr tt) /\
  exitCode Sample.android_finish = Some 1%Z /\
  In (console_error ["cp exited with status 1"])
     (events Sample.android_finish) /\
  exitCode (fst (Sample.link Sample.bare_line Sample.start)) = Some 1%Z.
Proof.
  assert (Hrun : Sample.link Sample.android_line Sample.start
                 = (Sample.android_finish, inr tt))
    by (vm_compute; reflexivity).
  split; [exact Hrun |].
  pose proof (link_exit_code_and_failures Sample.path_join Sample.plain
                Sample.path_basename (existsSync Sample.host)
                Sample.plain Sample.plain Sample.plain Sample.plain
                Sample.plain Sample.PLATFORMS Sample.getAutolinkPath
                Sample.discover
                Sample.expected_output Sample.up_to_date
                Sample.pruneLinkedModules Sample.linker Sample.linker
                Sample.restoreFrameworkLinks Sample.applePrebuildPath
                (process_cwd Sample.host)) as H.
  destruct (H Sample.android_line) as (_ & _ & _ & Hwhole).
  destruct (Hwhole Sample.start Sample.android_finish platform_android
              Sample.android_modules
              (Failed Sample.module_b Sample.copy_failure))
    as [Hcode Hreport].
  - exact Hrun.
  - left. reflexivity.
  - vm_compute. reflexivity.
  - right. left. reflexivity.
  - reflexivity.
  - split; [exact Hcode |]. split.
    + apply Hreport. right. left. reflexivity.
    + destruct (H Sample.bare_line) as (Hbare & _).
      unfold Sample.link. rewrite Hbare by reflexivity. reflexivity.
Defined.

(** [link --android] on the sample application calls
    [pruneLinkedModules] with the three results. *)
Lemma prune_runs_for_each_selected_platform_witness :
  Sample.link Sample.android_line Sample.start
    = (Sample.android_finish, inr tt) /\
  In platform_android (selected_platforms (link_options Sample.android_line)) /\
  In (call_pruneLinkedModules platform_android Sample.android_modules)
     (events Sample.android_finish).
Proof.
  assert (Hrun : Sample.link Sample.android_line Sample.start
                 = (Sample.android_finish, inr tt))
    by (vm_compute; reflexivity).
  assert (Hin : In platform_android
                  (selected_platforms (link_options Sample.android_line)))
    by (left; reflexivity).
  split; [exact Hrun |]. split; [exact Hin |].
  destruct (prune_runs_for_each_selected_platform Sample.path_join
              Sample.plain Sample.path_basename (existsSync Sample.host)
              Sample.plain Sample.plain Sample.plain Sample.plain
              Sample.plain Sample.PLATFORMS Sample.getAutolinkPath
              sample_linkModules
              Sample.pruneLinkedModules Sample.linker Sample.linker
              Sample.restoreFrameworkLinks Sample.applePrebuildPath
              (process_cwd Sample.host) Sample.android_line)
    as (_ & _ & _ & Hwhole).
  destruct (Hwhole Sample.start Sample.android_finish platform_android
              Hrun Hin) as (modules & before & after & Hlink & Hevents).
  vm_compute in Hlink. injection Hlink as <-.
  rewrite Hevents, !in_app_iff. right. right. left. reflexivity.
Defined.

(** * More on the target resolver *)

Lemma split_head_free (sep : ascii) (s : string) :
  exists piece pieces,
    Js.split sep s = piece :: pieces /\
    Js.includes piece (String sep EmptyString) = false.
Proof.
  induction s as [|c s (piece & pieces & Hsplit & Hfree)]; simpl.
  - exists EmptyString, []. auto.
  - destruct (decide (c = sep)) as [->|Hc].
    + exists EmptyString, (Js.split sep s). auto.
    + rewrite Hsplit. exists (String c piece), pieces.
      split; [reflexivity |]. simpl. rewrite Hfree.
      destruct (ascii_dec sep c); [congruence | reflexivity].
Qed.

(** X11. On every string, [getTargetAndroidArch] gives a name without a
    dash that is never [armv7]; [getTargetAndroidPlatform] gives one of its
    two platforms, and [androideabi24] exactly when the first component of
    the string is [armv7] or [armv7a]. *)
Theorem android_arch_of_any_string (target : string) :
  let first := hd EmptyString (Js.split "-" target) in
  Js.includes (getTargetAndroidArch target) "-" = false /\
  getTargetAndroidArch target <> "armv7" /\
  (getTargetAndroidPlatform target = "androideabi24" <->
   first = "armv7" \/ first = "armv7a") /\
  (getTargetAndroidPlatform target = "android24" <->
   first <> "armv7" /\ first <> "armv7a").
Proof.
  intros first. unfold getTargetAndroidPlatform, getTargetAndroidArch.
  fold first.
  destruct (split_head_free "-" target) as (piece & pieces & Hsplit & Hfree).
  assert (Hfirst : first = piece) by (unfold first; by rewrite Hsplit).
  rewrite <- Hfirst in Hfree.
  destruct (decide (first = "armv7")) as [Harm|Harm].
  - rewrite decide_True by reflexivity.
    repeat split; auto; try discriminate.
    intros [? _]. contradiction.
  - destruct (decide (first = "armv7a")) as [Ha|Ha].
    + repeat split; auto; try discriminate. intros [_ ?]. contradiction.
    + repeat split; auto; try discriminate.
      intros [?|?]; contradiction.
Qed.

Section CargoMore.

Context (path_join : list string -> string).
Context (applePrebuildPath androidPrebuildPath : string).
Context (isThirdTierTarget : TargetName -> bool).
Context (spawn : Invocation -> Host -> Result Host).

Local Abbreviation joinPathAndAssertExistence :=
  (joinPathAndAssertExistence path_join).
Local Abbreviation getLLVMToolchainBinPath :=
  (getLLVMToolchainBinPath path_join).
Local Abbreviation getWeakNodeApiFrameworkPath :=
  (getWeakNodeApiFrameworkPath path_join applePrebuildPath).
Local Abbreviation getWeakNodeApiAndroidLibraryPath :=
  (getWeakNodeApiAndroidLibraryPath path_join androidPrebuildPath).
Local Abbreviation getTargetEnvironmentVariables :=
  (getTargetEnvironmentVariables path_join applePrebuildPath
     androidPrebuildPath).
Local Abbreviation tool := (tool path_join).
Local Abbreviation android_environment := (android_environment path_join).
Local Abbreviation cargo_invocation := (cargo_invocation isThirdTierTarget).
Local Abbreviation targetOutputPath := (targetOutputPath path_join).
Local Abbreviation build :=
  (build path_join applePrebuildPath androidPrebuildPath isThirdTierTarget
     spawn).

(** X1. [getLLVMToolchainBinPath] returns exactly when the prebuilt
    directory of the NDK lists one entry, and then gives the bin directory
    of that entry; an empty listing and a listing of several entries are
    two different errors; and when the directory cannot be read, the error
    of [readdirSync] is the error of the call, whatever it is. *)
Theorem toolchain_is_the_single_candidate (h : Host) (ndkPath : string) :
  let prebuiltPath := path_join [ndkPath; "toolchains"; "llvm"; "prebuilt"] in
  (forall bin,
     getLLVMToolchainBinPath h ndkPath = inr bin <->
     exists candidate,
       readdirSync h prebuiltPath = inr [candidate] /\
       bin = path_join [prebuiltPath; candidate; "bin"]) /\
  (readdirSync h prebuiltPath = inr [] ->
   getLLVMToolchainBinPath h ndkPath
     = inl (JsError "Expected LLVM toolchain to be installed")) /\
  (forall candidates,
     readdirSync h prebuiltPath = inr candidates ->
     (1 < length candidates)%nat ->
     getLLVMToolchainBinPath h ndkPath
       = inl (JsError "Expected a single LLVM toolchain to be installed")) /\
  (forall error,
     readdirSync h prebuiltPath = inl error ->
     getLLVMToolchainBinPath h ndkPath = inl error).
Proof.
  intros prebuiltPath. unfold Cargo.getLLVMToolchainBinPath.
  fold prebuiltPath. repeat split.
  - destruct (readdirSync h prebuiltPath) as [error|[|candidate [|]]];
      try discriminate.
    intros [= <-]. eauto.
  - intros (candidate & -> & ->). reflexivity.
  - intros ->. reflexivity.
  - intros candidates -> Hlen.
    destruct candidates as [|? [|]]; simpl in Hlen; try lia. reflexivity.
  - intros error ->. reflexivity.
Qed.

Lemma joinPathAndAssertExistence_exists h segments :
  existsSync h (path_join segments) = true ->
  joinPathAndAssertExistence h segments = inr (path_join segments).
Proof. intros H. unfold Cargo.joinPathAndAssertExistence. by rewrite H. Qed.

(** What the Android branch needs of its host, and what it then returns. *)
Lemma android_environment_iff h configuration target ndkVersion level env :
  getTargetEnvironmentVariables h
    (AndroidBuild configuration target ndkVersion level) = inr env <->
  exists home bin lib,
    ndkVersion <> EmptyString /\
    process_env h !! "ANDROID_HOME" = Some home /\
    home <> EmptyString /\
    existsSync h home = true /\
    existsSync h (path_join [home; "ndk"; ndkVersion]) = true /\
    getLLVMToolchainBinPath h (path_join [home; "ndk"; ndkVersion]) = inr bin /\
    getWeakNodeApiAndroidLibraryPath h target = inr lib /\
    Forall (fun name => existsSync h (tool bin name) = true)
           (CargoNames.android_tool_names h target level) /\
    env = android_environment h target ndkVersion level home bin lib.
Proof.
  split.
  - intros H. unfold Cargo.getTargetEnvironmentVariables in H. result_steps.
    destruct (process_env h !! "ANDROID_HOME") as [home|] eqn:Hhome;
      [| discriminate].
    apply andb_true_iff in Hstep0 as [Htruthy Hexists].
    repeat match goal with
      | Hj : joinPathAndAssertExistence _ _ = inr _ |- _ =>
          apply joinPathAndAssertExistence_ok in Hj as [-> ?]
      end.
    exists home. eexists _, _.
    repeat split; eauto.
    + intros ->. discriminate.
    + intros ->. discriminate.
    + repeat constructor; assumption.
  - intros (home & bin & lib & Hndk & Hhome & Hne & Hex & Hndkdir & Hbin
            & Hlib & Htools & ->).
    unfold Cargo.getTargetEnvironmentVariables.
    assert (Htruthy : forall s, s <> EmptyString -> Js.truthy s = true).
    { intros s Hs. unfold Js.truthy. by rewrite bool_decide_eq_false_2. }
    rewrite (Htruthy _ Hndk), Hhome, (Htruthy _ Hne), Hex. simpl.
    rewrite Hndkdir. simpl. rewrite Hbin. simpl. rewrite Hlib. simpl.
    unfold CargoNames.android_tool_names, Cargo.tool, Cargo.cmdMaybe,
      Cargo.exeMaybe in Htools.
    repeat match goal with
      | Hall : Forall _ (_ :: _) |- _ =>
          let Hone := fresh "Hone" in
          apply Forall_cons in Hall as [Hone Hall];
          rewrite (joinPathAndAssertExistence_exists _ _ Hone); simpl
      end.
    reflexivity.
Qed.

(** X2. The Android branch returns exactly when the NDK version is not
    empty, [ANDROID_HOME] names an existing directory, the NDK of that
    version exists under it, the toolchain and the library directory
    resolve, and the eight tools exist in the toolchain's bin directory; the
    mapping is then the one built from these paths. *)
Theorem android_environment_exactly
    h configuration target ndkVersion level env :
  getTargetEnvironmentVariables h
    (AndroidBuild configuration target ndkVersion level) = inr env <->
  exists home bin lib,
    ndkVersion <> EmptyString /\
    process_env h !! "ANDROID_HOME" = Some home /\
    home <> EmptyString /\
    existsSync h home = true /\
    existsSync h (path_join [home; "ndk"; ndkVersion]) = true /\
    getLLVMToolchainBinPath h (path_join [home; "ndk"; ndkVersion]) = inr bin /\
    getWeakNodeApiAndroidLibraryPath h target = inr lib /\
    Forall (fun name => existsSync h (tool bin name) = true)
           (CargoNames.android_tool_names h target level) /\
    env = android_environment h target ndkVersion level home bin lib.
Proof.
  split; intros H.
  - apply (proj1 (android_environment_iff h configuration target ndkVersion
                    level env)), H.
  - apply (proj2 (android_environment_iff h configuration target ndkVersion
                    level env)), H.
Qed.

(** X3. The checks of the Android branch fail in their order, each with its
    own error: an empty NDK version is an assertion error on every host;
    then an [ANDROID_HOME] that is not set, is empty or names nothing is a
    usage error with instructions; then a missing NDK directory is a usage
    error with the [sdkmanager] command that installs this version; then an
    error of the toolchain lookup is handed on as it is. *)
Theorem android_resolution_errors h configuration target ndkVersion level :
  let options := AndroidBuild configuration target ndkVersion level in
  (ndkVersion = EmptyString ->
   getTargetEnvironmentVariables h options
     = inl (AssertionError
              "Expected ndkVersion to be set for Android targets")) /\
  (ndkVersion <> EmptyString ->
   (forall home,
      process_env h !! "ANDROID_HOME" = Some home ->
      home = EmptyString \/ existsSync h home = false) ->
   getTargetEnvironmentVariables h options
     = inl (UsageError "Missing ANDROID_HOME environment variable"
              (Some (Instructions
                       "Set ANDROID_HOME to the Android SDK directory")))) /\
  (forall home,
     ndkVersion <> EmptyString ->
     process_env h !! "ANDROID_HOME" = Some home ->
     home <> EmptyString ->
     existsSync h home = true ->
     let ndkPath := path_join [home; "ndk"; ndkVersion] in
     (existsSync h ndkPath = false ->
      getTargetEnvironmentVariables h options
        = inl (UsageError ("Expected NDK at " +:+ ndkPath)
                 (Some (Command
                          ("sdkmanager --install "
                             +:+ Js.quoted ("ndk;" +:+ ndkVersion)))))) /\
     (forall e,
        existsSync h ndkPath = true ->
        getLLVMToolchainBinPath h ndkPath = inl e ->
        getTargetEnvironmentVariables h options = inl e)).
Proof.
  intros options.
  assert (Htruthy : forall s, s <> EmptyString -> Js.truthy s = true).
  { intros s Hs. unfold Js.truthy. by rewrite bool_decide_eq_false_2. }
  unfold options, Cargo.getTargetEnvironmentVariables. repeat split.
  - intros ->. reflexivity.
  - intros Hndk Hhome. rewrite (Htruthy _ Hndk). simpl.
    destruct (process_env h !! "ANDROID_HOME") as [home|]; [| reflexivity].
    destruct (Hhome home eq_refl) as [-> | Hex]; [reflexivity |].
    rewrite Hex, andb_false_r. reflexivity.
  - intros Hdir. rewrite (Htruthy _ H), H0, (Htruthy _ H1), H2. simpl.
    rewrite Hdir. reflexivity.
  - intros e Hdir Hbin. rewrite (Htruthy _ H), H0, (Htruthy _ H1), H2. simpl.
    rewrite Hdir. simpl. rewrite Hbin. reflexivity.
Qed.

Lemma android_environment_names h target ndkVersion level home bin lib name :
  is_Some (android_environment h target ndkVersion level home bin lib !! name)
  <-> In name CargoNames.android_names.
Proof.
  unfold Cargo.android_environment. cbv zeta.
  unfold CargoNames.android_names, CargoNames.android_path_names.
  repeat (rewrite lookup_insert; case_decide;
          [subst; split; [intros _; simpl; tauto | intros _; eauto] |]).
  rewrite lookup_empty. split.
  - intros [? ?]. discriminate.
  - simpl. intros Hin. exfalso.
    repeat (destruct Hin as [Hin|Hin]; [congruence |]). exact Hin.
Qed.

(** X4. The mapping of the Android branch sets eleven variables and no
    other: the encoded flags, the four linkers, the four tools of the
    requested target, [ANDROID_NDK] and [PATH]. *)
Theorem android_environment_domain
    h configuration target ndkVersion level env name :
  getTargetEnvironmentVariables h
    (AndroidBuild configuration target ndkVersion level) = inr env ->
  is_Some (env !! name) <-> In name CargoNames.android_names.
Proof.
  intros H. apply android_environment_iff in H
    as (home & bin & lib & _ & _ & _ & _ & _ & _ & _ & _ & ->).
  apply android_environment_names.
Qed.

(** X5. Every path that the Android branch hands to cargo exists on the
    host: the four linkers, the compilers, the archiver, ranlib and the NDK
    directory. *)
Theorem android_environment_paths_exist
    h configuration target ndkVersion level env name :
  getTargetEnvironmentVariables h
    (AndroidBuild configuration target ndkVersion level) = inr env ->
  In name CargoNames.android_path_names ->
  exists p, env !! name = Some p /\ existsSync h p = true.
Proof.
  intros H Hin. apply android_environment_iff in H
    as (home & bin & lib & _ & _ & _ & _ & Hndk & _ & _ & Htools & ->).
  unfold CargoNames.android_tool_names in Htools.
  repeat match goal with
    | Hall : Forall _ (_ :: _) |- _ =>
        let Hone := fresh "Hone" in
        apply Forall_cons in Hall as [Hone Hall]
    end.
  unfold CargoNames.android_path_names in Hin.
  unfold Cargo.android_environment. cbv zeta.
  repeat (destruct Hin as [<- | Hin];
          [eexists; split; [lookup_env | assumption] |]).
  destruct Hin.
Qed.

(** X6. The compilers of the target do not follow [androidApiLevel]: for
    every level, [TARGET_CC] is the linker that the same request at level
    24 gets for the requested target. *)
Theorem target_cc_is_pinned_to_level_24
    h configuration target ndkVersion level env env24 :
  getTargetEnvironmentVariables h
    (AndroidBuild configuration target ndkVersion level) = inr env ->
  getTargetEnvironmentVariables h
    (AndroidBuild configuration target ndkVersion 24) = inr env24 ->
  env !! "TARGET_CC" = env24 !! CargoNames.linker_variable target.
Proof.
  intros H H24.
  apply android_environment_iff in H
    as (home & bin & lib & _ & Hhome & _ & _ & _ & Hbin & _ & _ & ->).
  apply android_environment_iff in H24
    as (home' & bin' & lib' & _ & Hhome' & _ & _ & _ & Hbin' & _ & _ & ->).
  rewrite Hhome in Hhome'. injection Hhome' as <-.
  rewrite Hbin in Hbin'. injection Hbin' as <-.
  unfold Cargo.android_environment. cbv zeta.
  change (Js.number 24) with "24".
  destruct target; simpl CargoNames.linker_variable;
    repeat (rewrite lookup_insert_ne by (intros ?; discriminate));
    rewrite !lookup_insert_eq; reflexivity.
Qed.

(** X7. The Apple branch reads nothing of its host but which paths exist:
    on two hosts with the same existing paths it gives the same result,
    whatever their environments, platforms and working directories, and
    whatever the configuration and the API level of the options. *)
Theorem apple_environment_reads_existence_only
    h1 h2 configuration1 configuration2 target level1 level2 :
  (forall p, existsSync h1 p = existsSync h2 p) ->
  getTargetEnvironmentVariables h1 (AppleBuild configuration1 target level1)
  = getTargetEnvironmentVariables h2 (AppleBuild configuration2 target level2).
Proof.
  intros Hex.
  unfold Cargo.getTargetEnvironmentVariables,
    Cargo.getWeakNodeApiFrameworkPath.
  rewrite (find_agree _
             (fun slice => existsSync h2 (path_join [applePrebuildPath; slice])))
    by (intros slice; apply Hex).
  apply bind_ext.
  - destruct (find _ _); [| reflexivity].
    apply bind_ext; [reflexivity |]. intros _.
    apply joinPathAndAssertExistence_agree, Hex.
  - intros framework. by rewrite Hex.
Qed.

(** X8. [build] stops at its first failure: when the environment cannot be
    resolved cargo is not started and the error is the resolver's; when
    cargo fails, its error is the result and nothing is read afterwards;
    and when cargo ends well without an output directory for the target and
    configuration, the result is the assertion error that names it. *)
Theorem build_stops_at_the_first_failure h options :
  (forall e,
     getTargetEnvironmentVariables h options = inl e ->
     build h options = ([], inl e)) /\
  (forall env e,
     getTargetEnvironmentVariables h options = inr env ->
     spawn (cargo_invocation h options env) h = inl e ->
     build h options = ([cargo_invocation h options env], inl e)) /\
  (forall env h',
     getTargetEnvironmentVariables h options = inr env ->
     spawn (cargo_invocation h options env) h = inr h' ->
     existsSync h' (targetOutputPath h' options) = false ->
     build h options =
       ([cargo_invocation h options env],
        inl (AssertionError
               ("Expected " +:+ targetOutputPath h' options
                  +:+ " to exist")))).
Proof.
  unfold Cargo.build. repeat split.
  - intros e ->. reflexivity.
  - intros env e -> Hspawn. simpl. by rewrite Hspawn.
  - intros env h' -> Hspawn Hex. simpl. rewrite Hspawn. simpl.
    unfold Cargo.joinPathAndAssertExistence.
    fold (targetOutputPath h' options). by rewrite Hex.
Qed.


(** X10. For an Android target the environment of the cargo invocation is
    the ambient one with the eleven variables of the branch set over it:
    a variable of the mapping has the value of the mapping, whatever the
    ambient environment held under that name, and every other variable is
    the ambient one. *)
Theorem android_cargo_environment
    h configuration target ndkVersion level env name :
  let options := AndroidBuild configuration target ndkVersion level in
  getTargetEnvironmentVariables h options = inr env ->
  fst (build h options) = [cargo_invocation h options env] /\
  (In name CargoNames.android_names ->
   is_Some (env !! name) /\
   inv_env (cargo_invocation h options env) !! name = env !! name) /\
  (~ In name CargoNames.android_names ->
   inv_env (cargo_invocation h options env) !! name = process_env h !! name).
Proof.
  intros options H.
  pose proof (build_invocation path_join applePrebuildPath
                androidPrebuildPath isThirdTierTarget spawn h options env H)
    as Hbuild.
  apply android_environment_iff in H
    as (home & bin & lib & _ & _ & _ & _ & _ & _ & _ & _ & ->).
  split; [exact Hbuild |]. split.
  - intros Hin.
    apply (proj2 (android_environment_names h target ndkVersion level
                    home bin lib name)) in Hin as [value Hvalue].
    split; [eauto |]. rewrite Hvalue. apply cargo_env_set, Hvalue.
  - intros Hout. apply cargo_env_unset.
    apply eq_None_not_Some. intros Hsome. apply Hout.
    apply (proj1 (android_environment_names h target ndkVersion level
                    home bin lib name)), Hsome.
Qed.

End CargoMore.

(** * The CMake variables *)

Lemma split_nonempty (sep : ascii) (s : string) : Js.split sep s <> [].
Proof.
  destruct (split_head_free sep s) as (piece & pieces & -> & _).
  discriminate.
Qed.

Lemma toCmakePath_slashed (input : string) :
  CmakeRn.toCmakePath input = CmakeRn.slashed input.
Proof.
  unfold CmakeRn.toCmakePath.
  induction input as [|c input IH]; [reflexivity |].
  simpl. destruct (decide (c = CmakeRn.win32_sep)) as [->|Hc].
  - pose proof (split_nonempty CmakeRn.win32_sep input) as Hne.
    destruct (Js.split CmakeRn.win32_sep input) as [|piece pieces];
      [congruence |].
    change (Js.join CmakeRn.posix_sep (EmptyString :: piece :: pieces))
      with (String (ascii_of_nat 47)
              (Js.join CmakeRn.posix_sep (piece :: pieces))).
    by rewrite IH.
  - pose proof (split_nonempty CmakeRn.win32_sep input) as Hne.
    destruct (Js.split CmakeRn.win32_sep input) as [|piece pieces];
      [congruence |].
    rewrite <- IH. destruct pieces; reflexivity.
Qed.

Lemma slashed_free (s : string) :
  Js.includes (CmakeRn.slashed s) (String CmakeRn.win32_sep EmptyString)
  = false.
Proof.
  induction s as [|c s IH]; [reflexivity |].
  cbn [CmakeRn.slashed Js.includes]. rewrite IH, orb_false_r.
  destruct (decide (c = CmakeRn.win32_sep)) as [->|Hc].
  - reflexivity.
  - cbn [String.prefix].
    destruct (ascii_dec CmakeRn.win32_sep c); [congruence | reflexivity].
Qed.

Lemma slashed_unchanged (s : string) :
  CmakeRn.slashed s = s <->
  Js.includes s (String CmakeRn.win32_sep EmptyString) = false.
Proof.
  induction s as [|c s IH]; [by split |].
  cbn [CmakeRn.slashed]. split.
  - intros [= Hc Hs].
    destruct (decide (c = CmakeRn.win32_sep)) as [->|Hne];
      [discriminate Hc |].
    cbn [Js.includes String.prefix].
    destruct (ascii_dec CmakeRn.win32_sep c); [congruence |].
    simpl. apply IH, Hs.
  - intros H. apply includes_char_cons in H as [Hc Hs].
    rewrite decide_False by exact Hc. f_equal. apply IH, Hs.
Qed.

(** X12. [toCmakePath] makes every backslash of its input a slash and
    changes nothing else: the result has the length of the input and no
    backslash, a second application changes nothing, and the input comes
    back unchanged exactly when it had no backslash. *)
Theorem toCmakePath_replaces_backslashes (input : string) :
  CmakeRn.toCmakePath input = CmakeRn.slashed input /\
  String.length (CmakeRn.toCmakePath input) = String.length input /\
  Js.includes (CmakeRn.toCmakePath input)
    (String CmakeRn.win32_sep EmptyString) = false /\
  CmakeRn.toCmakePath (CmakeRn.toCmakePath input)
    = CmakeRn.toCmakePath input /\
  (CmakeRn.toCmakePath input = input <->
   Js.includes input (String CmakeRn.win32_sep EmptyString) = false).
Proof.
  rewrite !toCmakePath_slashed. repeat split.
  - induction input as [|c input IH]; simpl; [reflexivity | by rewrite IH].
  - apply slashed_free.
  - apply slashed_unchanged, slashed_free.
  - apply slashed_unchanged.
  - apply slashed_unchanged.
Qed.

Section CmakeProperties.

Context (path_join : list string -> string).
Context (applePrebuildPath androidPrebuildPath weakNodeApiCmakePath : string).
Context (isAppleTriplet isAndroidTriplet : string -> bool).
Context (ANDROID_ARCHITECTURES : string -> string).
Context (getNodeApiHeadersPath getNodeAddonHeadersPath : Result string).

Local Abbreviation getWeakNodeApiPath :=
  (CmakeRn.getWeakNodeApiPath path_join applePrebuildPath androidPrebuildPath
     isAppleTriplet isAndroidTriplet ANDROID_ARCHITECTURES).
Local Abbreviation getNodeApiIncludePaths :=
  (CmakeRn.getNodeApiIncludePaths getNodeApiHeadersPath
     getNodeAddonHeadersPath).
Local Abbreviation getWeakNodeApiVariables :=
  (CmakeRn.getWeakNodeApiVariables path_join applePrebuildPath
     androidPrebuildPath weakNodeApiCmakePath isAppleTriplet isAndroidTriplet
     ANDROID_ARCHITECTURES getNodeApiHeadersPath getNodeAddonHeadersPath).
Local Abbreviation getCmakeJSVariables :=
  (CmakeRn.getCmakeJSVariables path_join applePrebuildPath
     androidPrebuildPath isAppleTriplet isAndroidTriplet
     ANDROID_ARCHITECTURES getNodeApiHeadersPath getNodeAddonHeadersPath).

(** The include paths, when they are returned. *)
Lemma getNodeApiIncludePaths_ok includePaths :
  getNodeApiIncludePaths = inr includePaths ->
  exists nodeApiHeaders nodeAddonHeaders,
    getNodeApiHeadersPath = inr nodeApiHeaders /\
    getNodeAddonHeadersPath = inr nodeAddonHeaders /\
    includePaths = [nodeApiHeaders; nodeAddonHeaders] /\
    Js.includes nodeApiHeaders ";" = false /\
    Js.includes nodeAddonHeaders ";" = false.
Proof.
  unfold CmakeRn.getNodeApiIncludePaths.
  destruct getNodeApiHeadersPath as [e|a]; [discriminate |].
  destruct getNodeAddonHeadersPath as [e|b]; [discriminate |].
  simpl.
  destruct (Js.includes a ";") eqn:Hfa; simpl; [discriminate |].
  destruct (Js.includes b ";") eqn:Hfb; simpl; [discriminate |].
  intros [= <-]. eauto 10.
Qed.

(** X13. When [getWeakNodeApiVariables] returns, [WEAK_NODE_API_INC] is the
    two header directories joined by a semicolon, neither holds a
    semicolon, and splitting the value on semicolons gives the two
    directories back. *)
Theorem include_variable_splits_back (h : Host) (triplet : string) variables :
  getWeakNodeApiVariables h triplet = inr variables ->
  exists nodeApiHeaders nodeAddonHeaders,
    getNodeApiHeadersPath = inr nodeApiHeaders /\
    getNodeAddonHeadersPath = inr nodeAddonHeaders /\
    variables !! "WEAK_NODE_API_INC"
      = Some (nodeApiHeaders +:+ ";" +:+ nodeAddonHeaders) /\
    Js.split ";" (nodeApiHeaders +:+ ";" +:+ nodeAddonHeaders)
      = [nodeApiHeaders; nodeAddonHeaders].
Proof.
  unfold CmakeRn.getWeakNodeApiVariables. intros H. result_steps.
  apply getNodeApiIncludePaths_ok in Hstep
    as (a & b & Ha & Hb & -> & Hfa & Hfb).
  exists a, b. repeat split; auto.
  - rewrite <- H. lookup_env.
  - apply (split_join ";" [a; b]); [discriminate |].
    repeat constructor; assumption.
Qed.

(** X14. A header directory with a semicolon in its path makes both
    [getWeakNodeApiVariables] and [getCmakeJSVariables] fail with the
    assertion error that names the first such directory, on every host and
    for every triplet: the library is not looked up before. *)
Theorem include_path_with_semicolon_is_refused
    (h : Host) (triplet : string) nodeApiHeaders nodeAddonHeaders :
  getNodeApiHeadersPath = inr nodeApiHeaders ->
  getNodeAddonHeadersPath = inr nodeAddonHeaders ->
  Js.includes nodeApiHeaders ";" = true \/
  Js.includes nodeAddonHeaders ";" = true ->
  let offending :=
    if Js.includes nodeApiHeaders ";" then nodeApiHeaders
    else nodeAddonHeaders in
  let error :=
    AssertionError
      ("Include path with a ';' is not supported: " +:+ offending) in
  getWeakNodeApiVariables h triplet = inl error /\
  getCmakeJSVariables h triplet = inl error.
Proof.
  intros Ha Hb Hsemi offending error.
  unfold CmakeRn.getWeakNodeApiVariables, CmakeRn.getCmakeJSVariables,
    CmakeRn.getNodeApiIncludePaths.
  rewrite Ha, Hb. unfold error, offending. simpl.
  destruct (Js.includes nodeApiHeaders ";") eqn:Hfa; simpl; [auto |].
  destruct Hsemi as [Hsemi|Hsemi]; [discriminate |].
  rewrite Hsemi. simpl. auto.
Qed.

(** X15. [getCmakeJSVariables] is [getWeakNodeApiVariables] under the names
    of cmake-js: the two fail together, with the same error, and when they
    return, [CMAKE_JS_INC] and [CMAKE_JS_LIB] are [WEAK_NODE_API_INC] and
    [WEAK_NODE_API_LIB], and these two are all that the first sets. *)
Theorem cmake_js_variables_agree (h : Host) (triplet : string) :
  match getWeakNodeApiVariables h triplet, getCmakeJSVariables h triplet with
  | inr weak, inr cmakeJs =>
      cmakeJs !! "CMAKE_JS_INC" = weak !! "WEAK_NODE_API_INC" /\
      cmakeJs !! "CMAKE_JS_LIB" = weak !! "WEAK_NODE_API_LIB" /\
      is_Some (cmakeJs !! "CMAKE_JS_INC") /\
      is_Some (cmakeJs !! "CMAKE_JS_LIB") /\
      weak !! "WEAK_NODE_API_CONFIG" = Some weakNodeApiCmakePath /\
      forall name,
        name <> "CMAKE_JS_INC" -> name <> "CMAKE_JS_LIB" ->
        cmakeJs !! name = None
  | inl e1, inl e2 => e1 = e2
  | _, _ => False
  end.
Proof.
  unfold CmakeRn.getWeakNodeApiVariables, CmakeRn.getCmakeJSVariables.
  destruct getNodeApiIncludePaths as [e|includePaths]; simpl;
    [reflexivity |].
  destruct (getWeakNodeApiPath h triplet) as [e|lib]; simpl; [reflexivity |].
  repeat split;
    try (repeat first
           [ rewrite lookup_insert_eq
           | rewrite lookup_insert_ne by (intros ?; discriminate) ];
         eauto; fail).
  intros name H1 H2. rewrite !lookup_insert_ne by congruence.
  apply lookup_empty.
Qed.

(** X16. For [apple] and for every Apple triplet [getWeakNodeApiPath] gives
    the one XCFramework, whichever the triplet; what it returns exists on
    the host; and a triplet of neither family is an error that names it. *)
Theorem weak_node_api_path_by_family (h : Host) (triplet : string) :
  (isAppleTriplet triplet = true ->
   getWeakNodeApiPath h triplet = getWeakNodeApiPath h "apple") /\
  (getWeakNodeApiPath h "apple" =
     if existsSync h applePrebuildPath
     then inr applePrebuildPath
     else inl (AssertionError
                 ("Expected an XCFramework at " +:+ applePrebuildPath))) /\
  (forall p, getWeakNodeApiPath h triplet = inr p -> existsSync h p = true) /\
  (triplet <> "apple" ->
   isAppleTriplet triplet = false ->
   isAndroidTriplet triplet = false ->
   getWeakNodeApiPath h triplet
     = inl (JsError ("Unexpected triplet: " +:+ triplet))).
Proof.
  unfold CmakeRn.getWeakNodeApiPath. repeat split.
  - intros ->. rewrite orb_true_r. reflexivity.
  - simpl. by destruct (existsSync h applePrebuildPath).
  - intros p.
    destruct (_ || _).
    + destruct (existsSync h applePrebuildPath) eqn:Hex; simpl;
        [| discriminate].
      intros [= <-]. exact Hex.
    + destruct (isAndroidTriplet triplet); [| discriminate].
      destruct (existsSync h _) eqn:Hex; simpl; [| discriminate].
      intros [= <-]. exact Hex.
  - intros Hne -> ->. rewrite bool_decide_eq_false_2 by exact Hne.
    reflexivity.
Qed.

End CmakeProperties.

(** * More on the link and list commands *)

Lemma for_of_emit {A} (xs : list A) (event_of : A -> Event) (p : Process) :
  for_of xs (fun x => emit (event_of x)) p =
    ({| exitCode := exitCode p; events := events p ++ map event_of xs |},
     inr tt).
Proof.
  revert p. induction xs as [|x xs IH]; intros p; simpl.
  - destruct p. unfold act_ret. simpl. by rewrite app_nil_r.
  - unfold act_bind, emit at 1. rewrite IH. simpl.
    by rewrite <- app_assoc.
Qed.

Lemma oraPromise_run {A} (action : Act A) text successText failText p :
  oraPromise action text successText failText p =
    match action (fst (emit (ora_start text) p)) with
    | (p', inr x) => (fst (emit (ora_succeed successText) p'), inr x)
    | (p', inl e) => (fst (emit (ora_fail (failText e)) p'), inl e)
    end.
Proof.
  unfold oraPromise, act_bind at 1. cbn [emit fst].
  destruct (action _) as [p' [e|x]]; reflexivity.
Qed.

Lemma for_of_keeps_exitCode {A} (xs : list A) (body : A -> Act unit) :
  (forall x p, exitCode (fst (body x p)) = exitCode p) ->
  forall p, exitCode (fst (for_of xs body p)) = exitCode p.
Proof.
  intros Hbody. induction xs as [|x xs IH]; intros p; [reflexivity |].
  simpl. unfold act_bind. specialize (Hbody x p).
  destruct (body x p) as [p1 [e|[]]]; simpl in *; [exact Hbody |].
  by rewrite IH.
Qed.

Section CliMore.

Context (path_join : list string -> string).
Context (path_resolve path_basename : string -> string).
Context (fs_existsSync : string -> bool).
Context (chalk_dim chalk_bold chalk_greenBright chalk_redBright
          : string -> string).
Context (prettyPath : string -> string).
Context (PLATFORMS : list PlatformName).
Context (getAutolinkPath : PlatformName -> string).
Context (linkModules : LinkModulesOptions -> Result (list LinkedModuleOutput)).
Context (pruneLinkedModules :
          PlatformName -> list LinkedModuleOutput -> Result unit).
Context (linkXcframework linkAndroidDir : ModuleLinker).
Context (restoreFrameworkLinks : string -> Result unit).
Context (applePrebuildPath : string).
Context (report : Error -> list Event).

Local Abbreviation platform_reports :=
  (platform_reports path_basename chalk_greenBright chalk_redBright
     prettyPath getAutolinkPath).
Local Abbreviation linkModules_options :=
  (linkModules_options path_resolve linkXcframework linkAndroidDir).
Local Abbreviation link_one_platform :=
  (link_one_platform path_resolve path_basename chalk_greenBright
     chalk_redBright prettyPath getAutolinkPath linkModules
     pruneLinkedModules linkXcframework linkAndroidDir).
Local Abbreviation restore_all :=
  (restore_all path_join fs_existsSync restoreFrameworkLinks
     applePrebuildPath).
Local Abbreviation link_action :=
  (link_action path_join path_resolve path_basename fs_existsSync chalk_dim
     chalk_bold chalk_greenBright chalk_redBright prettyPath PLATFORMS
     getAutolinkPath linkModules pruneLinkedModules linkXcframework
     linkAndroidDir restoreFrameworkLinks applePrebuildPath).
Local Abbreviation program_link :=
  (Program.link path_join path_resolve path_basename fs_existsSync chalk_dim
     chalk_bold chalk_greenBright chalk_redBright prettyPath PLATFORMS
     getAutolinkPath linkModules pruneLinkedModules linkXcframework
     linkAndroidDir restoreFrameworkLinks applePrebuildPath report).
Local Abbreviation link_results :=
  (CliTrace.link_results path_resolve linkModules linkXcframework
     linkAndroidDir).
Local Abbreviation round_events :=
  (CliTrace.round_events path_resolve path_basename chalk_greenBright
     chalk_redBright prettyPath getAutolinkPath linkModules linkXcframework
     linkAndroidDir).
Local Abbreviation restored_frameworks :=
  (CliTrace.restored_frameworks path_join fs_existsSync applePrebuildPath).
Local Abbreviation restore_events :=
  (CliTrace.restore_events path_join fs_existsSync applePrebuildPath).
Local Abbreviation any_failure :=
  (CliTrace.any_failure path_resolve linkModules linkXcframework
     linkAndroidDir).

Lemma restore_all_run p :
  restore_all p =
    ({| exitCode := exitCode p;
        events :=
          events p ++ map call_restoreFrameworkLinks restored_frameworks |},
     first_rejection (map restoreFrameworkLinks restored_frameworks)).
Proof.
  unfold Cli.restore_all, act_bind. rewrite for_of_emit. reflexivity.
Qed.



(** What the rounds of a loop that ended well wrote and did to the exit
    code. *)
Lemma for_of_rounds pathArg options platforms p p' :
  for_of platforms (link_one_platform pathArg options) p = (p', inr tt) ->
  events p' = events p ++ flat_map (round_events pathArg options) platforms /\
  exitCode p' =
    if any_failure pathArg options platforms then Some 1%Z else exitCode p.
Proof.
  revert p. induction platforms as [|platform rest IH]; intros p Hrun.
  - injection Hrun as <-. simpl. by rewrite app_nil_r.
  - simpl in Hrun. apply act_bind_ok in Hrun as (p1 & [] & Hround & Hrest).
    pose proof Hround as Hok.
    eapply link_one_platform_ok in Hok as [modules Hlink].
    erewrite link_one_platform_run in Hround by exact Hlink.
    assert (Hresults : link_results pathArg options platform = modules).
    { unfold CliTrace.link_results. by rewrite Hlink. }
    destruct (IH p1 Hrest) as [Hevents Hcode].
    cbn [flat_map]. unfold CliTrace.any_failure. cbn [existsb].
    fold (any_failure pathArg options rest).
    unfold CliTrace.round_events at 1. rewrite Hresults.
    destruct (prune options);
      apply (f_equal fst) in Hround; cbn [fst] in Hround; subst p1;
      cbn [events exitCode] in Hevents, Hcode;
      rewrite Hevents, Hcode; (split; [by rewrite <- !app_assoc |]);
      by destruct (existsb has_failure modules), (any_failure _ _ rest).
Qed.

(** X18. A run of [link] that ends well, with at least one platform, wrote
    its opening line, then for each selected platform in turn the reports
    of the platform followed, when pruning is on, by the one call of
    [pruneLinkedModules], and then, only with [--apple], the restoration of
    the framework links; its exit code is 1 when a module of some selected
    platform failed and is otherwise the one it found. *)
Theorem link_run_in_order pathArg options p p' :
  link_action pathArg options p = (p', inr tt) ->
  selected_platforms options <> [] ->
  events p' =
    events p
      ++ [console_log ["Auto-linking Node-API modules from";
                       chalk_dim pathArg]]
      ++ flat_map (round_events pathArg options) (selected_platforms options)
      ++ (if apple options then restore_events else []) /\
  exitCode p' =
    if any_failure pathArg options (selected_platforms options)
    then Some 1%Z else exitCode p.
Proof.
  intros Hrun Hsome. unfold Cli.link_action in Hrun.
  apply act_bind_ok in Hrun as (p0 & [] & Hlog & Hrun).
  injection Hlog as <-.
  destruct (decide (length (selected_platforms options) = 0%nat)) as [Hnone|_].
  { destruct (selected_platforms options); [congruence | discriminate]. }
  apply act_bind_ok in Hrun as (pmid & [] & Hloop & Hrest).
  apply for_of_rounds in Hloop as [Hevents Hcode].
  cbn [events exitCode] in Hevents, Hcode.
  destruct (apple options).
  - rewrite oraPromise_run, restore_all_run in Hrest.
    destruct (first_rejection _) as [e|[]]; [discriminate |].
    injection Hrest as <-. cbn [emit fst events exitCode].
    rewrite Hevents, Hcode. split; [| reflexivity].
    unfold CliTrace.restore_events. rewrite <- !app_assoc. reflexivity.
  - injection Hrest as <-. rewrite Hevents, Hcode, app_nil_r.
    split; [by rewrite <- !app_assoc | reflexivity].
Qed.





End CliMore.

Lemma fold_left_count {A} (size : A -> nat) (l : list A) (start : nat) :
  fold_left (fun acc x => (acc + size x)%nat) l start
  = (start + length (flat_map (fun x => repeat tt (size x)) l))%nat.
Proof.
  revert start. induction l as [|x l IH]; intros start; simpl; [lia |].
  rewrite IH, length_app, repeat_length. lia.
Qed.

Lemma xframeworkCount_total (dependencies : list (string * Dependency)) :
  CliList.xframeworkCount dependencies
  = length (flat_map (fun entry => modulePaths (snd entry)) dependencies).
Proof.
  unfold CliList.xframeworkCount.
  rewrite (fold_left_count (fun entry => length (modulePaths (snd entry)))).
  simpl. induction dependencies as [|entry rest IH]; [reflexivity |].
  simpl. rewrite !length_app, repeat_length. by rewrite IH.
Qed.

Section ListProperties.

Context (path_join : list string -> string).
Context (path_resolve : string -> string).
Context (chalk_greenBright chalk_blueBright : string -> string).
Context (prettyPath : string -> string).
Context (PLATFORMS : list PlatformName).
Context (JSON_stringify : list (string * Dependency) -> string).
Context (LibraryMap : Type).
Context (findNodeApiModulePathsByDependency :
          string -> list PlatformName -> bool ->
          Result (list (string * Dependency))).
Context (getLibraryMap : list string -> NamingStrategy -> Result LibraryMap).
Context (visualizeLibraryMap : LibraryMap -> Result string).
Context (report : Error -> list Event).

Local Abbreviation list_dependency :=
  (CliList.list_dependency path_join chalk_blueBright prettyPath LibraryMap
     getLibraryMap visualizeLibraryMap).
Local Abbreviation list_action :=
  (CliList.list_action path_join path_resolve chalk_greenBright
     chalk_blueBright prettyPath PLATFORMS JSON_stringify LibraryMap
     findNodeApiModulePathsByDependency getLibraryMap visualizeLibraryMap).
Local Abbreviation program_list :=
  (Program.list path_join path_resolve chalk_greenBright chalk_blueBright
     prettyPath PLATFORMS JSON_stringify LibraryMap
     findNodeApiModulePathsByDependency getLibraryMap visualizeLibraryMap
     report).
Local Abbreviation picture :=
  (CliList.picture path_join LibraryMap getLibraryMap visualizeLibraryMap).
Local Abbreviation list_header :=
  (CliList.list_header chalk_greenBright prettyPath).
Local Abbreviation entry_events :=
  (CliList.entry_events path_join chalk_blueBright prettyPath LibraryMap
     getLibraryMap visualizeLibraryMap).

Lemma list_dependency_keeps_exitCode naming entry p :
  exitCode (fst (list_dependency naming entry p)) = exitCode p.
Proof.
  destruct entry as [dependencyName dependency].
  unfold CliList.list_dependency, act_bind, emit, lift. cbn [fst exitCode].
  destruct (getLibraryMap _ _) as [e|libraryMap]; [reflexivity |].
  destruct (visualizeLibraryMap libraryMap); reflexivity.
Qed.

(** The function handed to [wrapAction] does not assign the exit code. *)
Lemma list_action_keeps_exitCode fromArg json naming (p : Process) :
  exitCode (fst (list_action fromArg json naming p)) = exitCode p.
Proof.
  unfold CliList.list_action, act_bind at 1, lift at 1.
  destruct (findNodeApiModulePathsByDependency _ _ _) as [e|dependencies];
    [reflexivity |].
  destruct json; [reflexivity |].
  unfold act_bind, emit.
  rewrite (for_of_keeps_exitCode dependencies (list_dependency naming)
             (list_dependency_keeps_exitCode naming)).
  reflexivity.
Qed.

Lemma list_dependency_run naming entry drawn p :
  picture naming entry = inr drawn ->
  list_dependency naming entry p =
    ({| exitCode := exitCode p;
        events := events p ++ entry_events naming entry |}, inr tt).
Proof.
  intros Hpicture. unfold CliList.entry_events. rewrite Hpicture.
  destruct entry as [dependencyName dependency].
  unfold CliList.picture in Hpicture. cbn [snd] in Hpicture.
  unfold CliList.list_dependency, act_bind, emit, lift.
  cbn [fst snd exitCode events].
  destruct (getLibraryMap _ _) as [e|libraryMap]; [discriminate |].
  simpl in Hpicture. rewrite Hpicture. cbn [exitCode events].
  by rewrite <- app_assoc.
Qed.

Lemma for_of_list_dependency naming dependencies p :
  Forall (fun entry => exists drawn, picture naming entry = inr drawn)
         dependencies ->
  for_of dependencies (list_dependency naming) p =
    ({| exitCode := exitCode p;
        events := events p ++ flat_map (entry_events naming) dependencies |},
     inr tt).
Proof.
  intros Hall. revert p.
  induction Hall as [|entry rest [drawn Hdrawn] _ IH]; intros p.
  - destruct p. unfold for_of, act_ret. simpl. by rewrite app_nil_r.
  - cbn [for_of flat_map]. unfold act_bind.
    rewrite (list_dependency_run _ _ _ _ Hdrawn), IH.
    cbn [exitCode events]. by rewrite <- !app_assoc.
Qed.




(** X21. When discovery returns and every library map can be drawn, the
    listing is one line of totals followed by two lines for each package in
    the order of discovery; the first total is the number of module paths
    of all packages together, the second the number of packages, called
    [package] exactly when there is one; with [--json] it is the one line
    of the JSON text instead. *)
Theorem list_prints_totals_then_packages
    fromArg naming dependencies (p : Process) :
  findNodeApiModulePathsByDependency (path_resolve fromArg) PLATFORMS true
    = inr dependencies ->
  list_action fromArg true naming p =
    ({| exitCode := exitCode p;
        events := events p ++ [console_log [JSON_stringify dependencies]] |},
     inr tt) /\
  (Forall (fun entry => exists drawn, picture naming entry = inr drawn)
          dependencies ->
   list_action fromArg false naming p =
     ({| exitCode := exitCode p;
         events :=
           events p
             ++ list_header (path_resolve fromArg) dependencies
             :: flat_map (entry_events naming) dependencies |},
      inr tt)) /\
  CliList.xframeworkCount dependencies
    = length (flat_map (fun entry => modulePaths (snd entry)) dependencies) /\
  length (list_header (path_resolve fromArg) dependencies
            :: flat_map (entry_events naming) dependencies)
    = (1 + 2 * length dependencies)%nat.
Proof.
  intros Hfound. repeat split.
  - unfold CliList.list_action, act_bind, lift. rewrite Hfound. reflexivity.
  - intros Hall.
    unfold CliList.list_action, act_bind at 1, lift at 1. rewrite Hfound.
    unfold act_bind, emit at 1.
    rewrite (for_of_list_dependency _ _ _ Hall).
    cbn [exitCode events]. rewrite <- app_assoc. reflexivity.
  - apply xframeworkCount_total.
  - simpl. f_equal.
    clear Hfound. induction dependencies as [|entry rest IH]; [reflexivity |].
    simpl. rewrite IH. lia.
Qed.

End ListProperties.

(** * More runs on the sample hosts *)

Local Abbreviation sample_toolchain :=
  (Cargo.getLLVMToolchainBinPath Sample.path_join).

(** One toolchain on the sample host; two on another. *)
Lemma toolchain_is_the_single_candidate_witness :
  sample_toolchain Sample.host Sample.ndk = inr Sample.bin /\
  sample_toolchain SampleMore.host_two_toolchains Sample.ndk
    = inl (JsError "Expected a single LLVM toolchain to be installed") /\
  sample_toolchain SampleMore.host_prebuilt_is_file Sample.ndk
    = inl (ENOTDIR Sample.prebuilt).
Proof.
  split; [| split].
  - destruct (toolchain_is_the_single_candidate Sample.path_join Sample.host
                Sample.ndk) as (Hone & _).
    apply Hone. exists "linux-x86_64". split; reflexivity.
  - destruct (toolchain_is_the_single_candidate Sample.path_join
                SampleMore.host_two_toolchains Sample.ndk)
      as (_ & _ & Hmany & _).
    apply (Hmany ["linux-x86_64"; "darwin-x86_64"]); [reflexivity |].
    simpl. lia.
  - destruct (toolchain_is_the_single_candidate Sample.path_join
                SampleMore.host_prebuilt_is_file Sample.ndk)
      as (_ & _ & _ & Herror).
    apply Herror. reflexivity.
Defined.

(** A host without [ANDROID_HOME], and one without the NDK. *)
Lemma android_resolution_errors_witness :
  sample_environment SampleMore.host_without_sdk Sample.android_options
    = inl (UsageError "Missing ANDROID_HOME environment variable"
             (Some (Instructions
                      "Set ANDROID_HOME to the Android SDK directory"))) /\
  sample_environment SampleMore.host_without_ndk Sample.android_options
    = inl (UsageError "Expected NDK at /sdk/ndk/27.1.12297006"
             (Some (Command
                      ("sdkmanager --install "
                         +:+ Js.quoted "ndk;27.1.12297006")))).
Proof.
  split.
  - pose proof (android_resolution_errors Sample.path_join
                  Sample.applePrebuildPath Sample.androidPrebuildPath
                  SampleMore.host_without_sdk release armv7_linux_androideabi
                  "27.1.12297006" 24) as H.
    cbv zeta in H. destruct H as (_ & Hhome & _).
    apply Hhome; [discriminate |].
    intros home Hset. vm_compute in Hset. discriminate Hset.
  - pose proof (android_resolution_errors Sample.path_join
                  Sample.applePrebuildPath Sample.androidPrebuildPath
                  SampleMore.host_without_ndk release armv7_linux_androideabi
                  "27.1.12297006" 24) as H.
    cbv zeta in H. destruct H as (_ & _ & Hndk).
    destruct (Hndk "/sdk") as [Hmissing _];
      [discriminate | reflexivity | discriminate | reflexivity |].
    apply Hmissing. reflexivity.
Defined.

Lemma android_environment_domain_witness :
  sample_environment Sample.host Sample.android_options
    = inr Sample.android_env /\
  is_Some (Sample.android_env !! "ANDROID_NDK") /\
  ~ is_Some (Sample.android_env !! "HOME").
Proof.
  assert (Hrun : sample_environment Sample.host Sample.android_options
                 = inr Sample.android_env) by reflexivity.
  split; [exact Hrun |]. split.
  - apply (android_environment_domain _ _ _ _ _ _ _ _ _ _ Hrun).
    vm_compute. tauto.
  - intros Hsome.
    apply (android_environment_domain _ _ _ _ _ _ _ _ _ _ Hrun) in Hsome.
    vm_compute in Hsome.
    repeat (destruct Hsome as [Hsome|Hsome]; [discriminate Hsome |]).
    exact Hsome.
Defined.

Lemma android_environment_paths_exist_witness :
  sample_environment Sample.host Sample.android_options
    = inr Sample.android_env /\
  exists p,
    Sample.android_env !! "TARGET_RANLIB" = Some p /\
    existsSync Sample.host p = true.
Proof.
  assert (Hrun : sample_environment Sample.host Sample.android_options
                 = inr Sample.android_env) by reflexivity.
  split; [exact Hrun |].
  apply (android_environment_paths_exist _ _ _ _ _ _ _ _ _ _ Hrun).
  vm_compute. tauto.
Defined.

(** At level 21 the linkers are those of level 21 and the compiler is the
    linker of level 24. *)
Lemma target_cc_is_pinned_to_level_24_witness :
  sample_environment SampleMore.host_two_levels SampleMore.android_options_21
    = inr SampleMore.android_env_21 /\
  sample_environment SampleMore.host_two_levels
    (AndroidBuild debug armv7_linux_androideabi "27.1.12297006" 24)
    = inr Sample.android_env /\
  SampleMore.android_env_21 !! "TARGET_CC"
    = Sample.android_env !! "CARGO_TARGET_ARMV7_LINUX_ANDROIDEABI_LINKER".
Proof.
  assert (H21 : sample_environment SampleMore.host_two_levels
                  SampleMore.android_options_21
                = inr SampleMore.android_env_21) by reflexivity.
  assert (H24 : sample_environment SampleMore.host_two_levels
                  (AndroidBuild debug armv7_linux_androideabi
                     "27.1.12297006" 24)
                = inr Sample.android_env) by reflexivity.
  split; [exact H21 |]. split; [exact H24 |].
  exact (target_cc_is_pinned_to_level_24 _ _ _ _ _ _ _ _ _ _ H21 H24).
Defined.

Lemma apple_environment_reads_existence_only_witness :
  (forall p, existsSync Sample.host p = existsSync Sample.host_elsewhere p) /\
  sample_environment Sample.host (AppleBuild debug aarch64_apple_darwin None)
  = sample_environment Sample.host_elsewhere
      (AppleBuild release aarch64_apple_darwin (Some 24%Z)).
Proof.
  assert (Hsame : forall p,
            existsSync Sample.host p = existsSync Sample.host_elsewhere p)
    by reflexivity.
  split; [exact Hsame |].
  apply apple_environment_reads_existence_only, Hsame.
Defined.

(** A cargo that fails, and one that leaves no output directory. *)
Lemma build_stops_at_the_first_failure_witness :
  sample_build SampleMore.spawn_failing Sample.host Sample.android_options
    = ([sample_cargo Sample.host Sample.android_options Sample.android_env],
       inl (SpawnFailed "cargo exited with status 101"
              "error: could not compile")) /\
  sample_build Sample.spawn SampleMore.host_without_sdk Sample.android_options
    = ([], inl (UsageError "Missing ANDROID_HOME environment variable"
                  (Some (Instructions
                           "Set ANDROID_HOME to the Android SDK directory")))) /\
  snd (sample_build SampleMore.spawn_nothing Sample.host
         Sample.android_options)
    = inl (AssertionError
             "Expected /app/target/armv7-linux-androideabi/release to exist").
Proof.
  split; [| split].
  - destruct (build_stops_at_the_first_failure Sample.path_join
                Sample.applePrebuildPath Sample.androidPrebuildPath
                Sample.isThirdTierTarget SampleMore.spawn_failing Sample.host
                Sample.android_options) as (_ & Hspawn & _).
    apply Hspawn; reflexivity.
  - destruct (build_stops_at_the_first_failure Sample.path_join
                Sample.applePrebuildPath Sample.androidPrebuildPath
                Sample.isThirdTierTarget Sample.spawn
                SampleMore.host_without_sdk Sample.android_options)
      as (Henv & _).
    apply Henv. vm_compute. reflexivity.
  - destruct (build_stops_at_the_first_failure Sample.path_join
                Sample.applePrebuildPath Sample.androidPrebuildPath
                Sample.isThirdTierTarget SampleMore.spawn_nothing Sample.host
                Sample.android_options) as (_ & _ & Hout).
    rewrite (Hout Sample.android_env Sample.host);
      [reflexivity | reflexivity | reflexivity | vm_compute; reflexivity].
Defined.


Lemma android_cargo_environment_witness :
  sample_environment Sample.host Sample.android_options
    = inr Sample.android_env /\
  inv_env (sample_cargo Sample.host Sample.android_options Sample.android_env)
    !! "PATH" = Some (Sample.bin +:+ ":/usr/bin:/bin") /\
  inv_env (sample_cargo Sample.host Sample.android_options Sample.android_env)
    !! "HOME" = Some "/home/dev".
Proof.
  assert (Hrun : sample_environment Sample.host Sample.android_options
                 = inr Sample.android_env) by reflexivity.
  split; [exact Hrun |]. split.
  - pose proof (android_cargo_environment Sample.path_join
                  Sample.applePrebuildPath Sample.androidPrebuildPath
                  Sample.isThirdTierTarget Sample.spawn Sample.host release
                  armv7_linux_androideabi "27.1.12297006" 24
                  Sample.android_env "PATH") as H.
    cbv zeta in H. destruct (H Hrun) as (_ & Hset & _).
    destruct Hset as [_ Hvalue]; [vm_compute; tauto |].
    unfold Sample.android_options. rewrite Hvalue. vm_compute. reflexivity.
  - pose proof (android_cargo_environment Sample.path_join
                  Sample.applePrebuildPath Sample.androidPrebuildPath
                  Sample.isThirdTierTarget Sample.spawn Sample.host release
                  armv7_linux_androideabi "27.1.12297006" 24
                  Sample.android_env "HOME") as H.
    cbv zeta in H. destruct (H Hrun) as (_ & _ & Hunset).
    unfold Sample.android_options.
    rewrite Hunset; [vm_compute; reflexivity |].
    vm_compute. intros Hin.
    repeat (destruct Hin as [Hin|Hin]; [discriminate Hin |]). exact Hin.
Defined.

Local Abbreviation sample_weak_variables :=
  (CmakeRn.getWeakNodeApiVariables Sample.path_join Sample.applePrebuildPath
     Sample.androidPrebuildPath "/wna/weak-node-api.cmake"
     SampleMore.isAppleTriplet SampleMore.isAndroidTriplet
     SampleMore.ANDROID_ARCHITECTURES).
Local Abbreviation sample_cmake_js_variables :=
  (CmakeRn.getCmakeJSVariables Sample.path_join Sample.applePrebuildPath
     Sample.androidPrebuildPath SampleMore.isAppleTriplet
     SampleMore.isAndroidTriplet SampleMore.ANDROID_ARCHITECTURES).

(** The variables of an Android triplet on the sample host. *)
Lemma include_variable_splits_back_witness :
  (exists variables,
     sample_weak_variables (inr SampleMore.headers)
       (inr SampleMore.addon_headers) SampleMore.cmake_host
       "aarch64-linux-android" = inr variables /\
     variables !! "WEAK_NODE_API_INC"
       = Some "/app/node_modules/node-api-headers/include;/app/node_modules/node-addon-api") /\
  Js.split ";"
    "/app/node_modules/node-api-headers/include;/app/node_modules/node-addon-api"
  = [SampleMore.headers; SampleMore.addon_headers].
Proof.
  destruct (sample_weak_variables (inr SampleMore.headers)
              (inr SampleMore.addon_headers) SampleMore.cmake_host
              "aarch64-linux-android") as [e|variables] eqn:Hrun.
  { vm_compute in Hrun. discriminate Hrun. }
  destruct (include_variable_splits_back _ _ _ _ _ _ _ _ _ _ _ _ Hrun)
    as (a & b & Ha & Hb & Hinc & Hsplit).
  injection Ha as <-. injection Hb as <-.
  split; [| exact Hsplit].
  exists variables. split; [reflexivity | exact Hinc].
Defined.

(** Header directories under a path with a semicolon. *)
Lemma include_path_with_semicolon_is_refused_witness :
  sample_weak_variables (inr "/opt/a;b/include")
    (inr SampleMore.addon_headers) SampleMore.cmake_host "apple"
    = inl (AssertionError
             "Include path with a ';' is not supported: /opt/a;b/include") /\
  sample_cmake_js_variables (inr SampleMore.headers) (inr "/opt/a;b/addon")
    SampleMore.cmake_host "xyz"
    = inl (AssertionError
             "Include path with a ';' is not supported: /opt/a;b/addon").
Proof.
  split.
  - apply (include_path_with_semicolon_is_refused Sample.path_join
             Sample.applePrebuildPath Sample.androidPrebuildPath
             "/wna/weak-node-api.cmake" SampleMore.isAppleTriplet
             SampleMore.isAndroidTriplet SampleMore.ANDROID_ARCHITECTURES
             (inr "/opt/a;b/include") (inr SampleMore.addon_headers)
             SampleMore.cmake_host "apple" "/opt/a;b/include"
             SampleMore.addon_headers);
      [reflexivity | reflexivity | left; reflexivity].
  - apply (include_path_with_semicolon_is_refused Sample.path_join
             Sample.applePrebuildPath Sample.androidPrebuildPath
             "/wna/weak-node-api.cmake" SampleMore.isAppleTriplet
             SampleMore.isAndroidTriplet SampleMore.ANDROID_ARCHITECTURES
             (inr SampleMore.headers) (inr "/opt/a;b/addon")
             SampleMore.cmake_host "xyz" SampleMore.headers
             "/opt/a;b/addon");
      [reflexivity | reflexivity | right; reflexivity].
Defined.

Local Abbreviation sample_round_events :=
  (CliTrace.round_events Sample.plain Sample.path_basename Sample.plain
     Sample.plain Sample.plain Sample.getAutolinkPath
     (linkModules_spec Sample.discover Sample.expected_output
        Sample.up_to_date)
     Sample.linker Sample.linker).

(** [link --android --apple] on the sample application: the Android round
    with its failure, the Apple round without a module, and the
    restoration of the one framework that exists. *)
Lemma link_run_in_order_witness :
  exists finish,
    SampleMore.link_both Sample.start = (finish, inr tt) /\
    selected_platforms (link_options SampleMore.both_line)
      = [platform_android; platform_apple] /\
    exitCode finish = Some 1%Z /\
    events finish =
      [console_log ["Auto-linking Node-API modules from"; "/app"]]
        ++ sample_round_events "/app" (link_options SampleMore.both_line)
             platform_android
        ++ sample_round_events "/app" (link_options SampleMore.both_line)
             platform_apple
        ++ [ora_start "Restoring weak-node-api symlinks";
            call_restoreFrameworkLinks SampleMore.framework;
            ora_succeed "Restored weak-node-api symlinks"].
Proof.
  destruct (SampleMore.link_both Sample.start) as [finish [e|[]]] eqn:Hrun.
  { vm_compute in Hrun. discriminate Hrun. }
  exists finish. split; [reflexivity |]. split; [reflexivity |].
  unfold SampleMore.link_both in Hrun.
  apply link_run_in_order in Hrun as [Hevents Hcode]; [| discriminate].
  split.
  - rewrite Hcode. vm_compute. reflexivity.
  - rewrite Hevents. cbn [Sample.start events app].
    change (selected_platforms (link_options SampleMore.both_line))
      with [platform_android; platform_apple].
    cbn [flat_map]. rewrite app_nil_r, <- !app_assoc. reflexivity.
Defined.




(** [list] on the two packages of the sample application. *)
Lemma list_prints_totals_then_packages_witness :
  SampleMore.findNodeApiModulePathsByDependency "/app" Sample.PLATFORMS true
    = inr SampleMore.dependencies /\
  CliList.xframeworkCount SampleMore.dependencies = 3%nat /\
  SampleMore.list_packages true Sample.start
    = ({| exitCode := None; events := [console_log ["{}"]] |}, inr tt) /\
  length (events (fst (SampleMore.list_packages false Sample.start)))
    = 5%nat.
Proof.
  assert (Hfound : SampleMore.findNodeApiModulePathsByDependency
                     (Sample.plain "/app") Sample.PLATFORMS true
                   = inr SampleMore.dependencies) by reflexivity.
  split; [exact Hfound |].
  destruct (list_prints_totals_then_packages Sample.path_join Sample.plain
              Sample.plain Sample.plain Sample.plain Sample.PLATFORMS
              (fun _ => "{}") (list string)
              SampleMore.findNodeApiModulePathsByDependency
              SampleMore.getLibraryMap SampleMore.visualizeLibraryMap
              "/app"
              {| naming_packageName := None; naming_pathSuffix := None |}
              SampleMore.dependencies Sample.start Hfound)
    as (Hjson & Hlines & Hcount & Hlength).
  split; [| split].
  - rewrite Hcount. reflexivity.
  - unfold SampleMore.list_packages. rewrite Hjson. reflexivity.
  - unfold SampleMore.list_packages. rewrite Hlines.
    + cbn [fst events Sample.start app]. rewrite Hlength. reflexivity.
    + repeat constructor; eexists; reflexivity.
Defined.
